(** * Filtering and pagination core of the book catalogue

    A shallow embedding of [src/book.js] (the catalogue entry and its
    [matches] predicate) and [src/bookList.js] (the catalogue view with
    [search], [getCurrentBookPage], [remainingCount] and [nextPage]),
    followed by the properties the specification states about them.

    Modelling conventions.
    - A JavaScript string is the list of its UTF-16 code units, a code
      unit being a number below 2^16.  [trim], [includes] and [===] are
      defined on code units as ECMAScript defines them.
    - [toLowerCase] is Unicode's full lower-casing, which depends on tables
      this development does not contain; like the members that every
      object inherits from [Object.prototype], it is taken from the host
      ([JsString.Host]), and every statement holds for whatever the host
      provides.
    - A JavaScript number that the code only uses as an integer
      ([booksPerPage], [currentPage], array lengths and indices) is a [Z].
    - An object with mutable fields is a record threaded through a small
      state monad; a method is a computation in that monad.
    - A [TypeError] is modelled only in [Module Dyn], where the fields of
      an entry are untyped JavaScript values. *)

From Stdlib Require Import ZArith NArith List String Ascii Bool Lia.
From stdpp Require Import base list.
Import ListNotations.

Local Open Scope Z_scope.

(** ** JavaScript strings *)

Module JsString.

(** A UTF-16 code unit. *)
Definition codeUnit : Type := N.

(** A string value: its code units, in order. *)
Definition t : Type := list codeUnit.

(** A string literal of the source text whose characters are ASCII. *)
Definition lit (s : string) : t := map N_of_ascii (list_ascii_of_string s).

(** The code units that [String.prototype.trim] strips: WhiteSpace (TAB,
    VT, FF, ZWNBSP and the space separators of Unicode) and LineTerminator
    (LF, CR, LS, PS) of ECMAScript. *)
Definition isWhiteSpace (c : codeUnit) : bool :=
  (((9 <=? c) && (c <=? 13))
   || (c =? 32) || (c =? 160) || (c =? 5760)
   || ((8192 <=? c) && (c <=? 8202))
   || (c =? 8232) || (c =? 8233) || (c =? 8239) || (c =? 8287)
   || (c =? 12288) || (c =? 65279))%N.

Fixpoint trimStart (s : t) : t :=
  match s with
  | [] => []
  | c :: rest => if isWhiteSpace c then trimStart rest else s
  end.

Fixpoint trimEnd (s : t) : t :=
  match s with
  | [] => []
  | c :: rest =>
      match trimEnd rest with
      | [] => if isWhiteSpace c then [] else [c]
      | kept => c :: kept
      end
  end.

(** [s.trim()] *)
Definition trim (s : t) : t := trimEnd (trimStart s).

(** [search] is found in [s] at position 0. *)
Fixpoint occursAtStart (search s : t) : bool :=
  match search with
  | [] => true
  | a :: search' =>
      match s with
      | [] => false
      | b :: s' => (a =? b)%N && occursAtStart search' s'
      end
  end.

(** [s.includes(search)]: [search] occurs in [s] at some position. *)
Fixpoint includes (s search : t) : bool :=
  occursAtStart search s
  || match s with
     | [] => false
     | _ :: rest => includes rest search
     end.

(** ToBoolean of a string: only the empty string is falsy. *)
Definition truthy (s : t) : bool :=
  match s with
  | [] => false
  | _ :: _ => true
  end.

(** [a === b] on two strings: the same code units in the same order. *)
Fixpoint strictEq (a b : t) : bool :=
  match a, b with
  | [], [] => true
  | x :: a', y :: b' => (x =? y)%N && strictEq a' b'
  | _, _ => false
  end.

(** What the host provides.
    - [toLowerCase s] is [s.toLowerCase()].
    - [inheritedText key] is the text of [${Object.prototype[key]}] when
      [Object.prototype] has a member named [key] ([constructor],
      [toString], ...), and [None] when it has none. *)
Class Host : Type := mkHost
  { toLowerCase : t -> t;
    inheritedText : t -> option t }.

End JsString.
(** ** The raw records of [data.js] and the filter object *)

Module BookData.
Record t : Type := mk
  { id : JsString.t;
    title : JsString.t;
    author : JsString.t;
    image : JsString.t;
    description : JsString.t;
    published : JsString.t;
    genres : list JsString.t }.
End BookData.

Module Filters.
(** The object [Object.fromEntries(formData)] of the search form. *)
Record t : Type := mk
  { title : JsString.t;
    author : JsString.t;
    genre : JsString.t }.
End Filters.

(** ** [book.js] *)

Module Book.

(** [new Date(published)], kept symbolic: nothing in the core reads it. *)
Inductive Date : Type := NewDate (published : JsString.t).

Record t : Type := mk
  { id : JsString.t;
    title : JsString.t;
    author : JsString.t;
    image : JsString.t;
    description : JsString.t;
    published : Date;
    genres : list JsString.t }.

(** [createBook({ id, title, author, image, description, published, genres })] *)
Definition createBook (raw : BookData.t) : t :=
  {| id := BookData.id raw;
     title := BookData.title raw;
     author := BookData.author raw;
     image := BookData.image raw;
     description := BookData.description raw;
     published := NewDate (BookData.published raw);
     genres := BookData.genres raw |}.

(** The loop
    [for (const singleGenre of this.genres) {
       if (genreMatch) break;
       if (singleGenre === filters.genre) genreMatch = true }]
    with [genreMatch] as the loop-carried variable. *)
Fixpoint genreLoop (genreMatch : bool) (genres : list JsString.t) (genre : JsString.t) : bool :=
  match genres with
  | [] => genreMatch
  | singleGenre :: rest =>
      if genreMatch then genreMatch
      else genreLoop (if JsString.strictEq singleGenre genre then true else genreMatch)
                     rest genre
  end.

(** [matches(filters)] *)
Definition matches {host : JsString.Host} (this : t) (filters : Filters.t) : bool :=
  let titleMatch :=
    negb (JsString.truthy (JsString.trim (Filters.title filters)))
    || JsString.includes (JsString.toLowerCase (title this))
                         (JsString.toLowerCase (Filters.title filters)) in
  let authorMatch :=
    JsString.strictEq (Filters.author filters) (JsString.lit "any")
    || JsString.strictEq (author this) (Filters.author filters) in
  let genreMatch :=
    genreLoop (JsString.strictEq (Filters.genre filters) (JsString.lit "any"))
              (genres this) (Filters.genre filters) in
  titleMatch && authorMatch && genreMatch.

End Book.
(** ** [Array.prototype.slice] *)

(** [arr.slice(start, end)] for integer arguments, as ECMAScript defines
    it: a negative bound counts from the end of the array, every bound is
    clamped into [0, length], and an empty range gives the empty array. *)
Definition slice {A : Type} (arr : list A) (start end_ : Z) : list A :=
  let len := Z.of_nat (length arr) in
  let k := if start <? 0 then Z.max (len + start) 0 else Z.min start len in
  let final := if end_ <? 0 then Z.max (len + end_) 0 else Z.min end_ len in
  take (Z.to_nat (final - k)) (drop (Z.to_nat k) arr).

(** ** [bookList.js] *)

Module BookList.

(** The mutable fields of the object that [createBookList] returns. *)
Record t : Type := mk
  { books : list Book.t;
    booksPerPage : Z;
    currentPage : Z;
    matches : list Book.t }.

(** [createBookList(booksData, booksPerPage)] *)
Definition createBookList (booksData : list BookData.t) (booksPerPage : Z) : t :=
  {| books := map Book.createBook booksData;
     booksPerPage := booksPerPage;
     currentPage := 1;
     matches := map Book.createBook booksData |}.

(** A method body: it reads and assigns the fields of [this] and
    returns a value. *)
Definition method (A : Type) : Type := t -> A * t.

Definition ret {A : Type} (a : A) : method A := fun this => (a, this).

Definition bind {A B : Type} (m : method A) (k : A -> method B) : method B :=
  fun this => let (a, this') := m this in k a this'.

(** [this.field] *)
Definition read {A : Type} (field : t -> A) : method A :=
  fun this => (field this, this).

(** [this.matches = v] *)
Definition assign_matches (v : list Book.t) : method unit :=
  fun this =>
    (tt, {| books := books this; booksPerPage := booksPerPage this;
            currentPage := currentPage this; matches := v |}).

(** [this.currentPage = v] *)
Definition assign_currentPage (v : Z) : method unit :=
  fun this =>
    (tt, {| books := books this; booksPerPage := booksPerPage this;
            currentPage := v; matches := matches this |}).

Notation "x <- m ;; k" := (bind m (fun x => k))
  (at level 100, m at next level, right associativity).
Notation "m ;; k" := (bind m (fun _ => k))
  (at level 100, right associativity).

(** [search(filters)] *)
Definition search {host : JsString.Host} (filters : Filters.t) : method (list Book.t) :=
  all <- read books ;;
  assign_matches (List.filter (fun book => Book.matches book filters) all) ;;
  assign_currentPage 1 ;;
  read matches.

(** [getCurrentBookPage()] *)
Definition getCurrentBookPage : method (list Book.t) :=
  page <- read currentPage ;;
  perPage <- read booksPerPage ;;
  let start := (page - 1) * perPage in
  let end_ := start + perPage in
  found <- read matches ;;
  ret (slice found start end_).

(** [remainingCount()] *)
Definition remainingCount : method Z :=
  found <- read matches ;;
  page <- read currentPage ;;
  perPage <- read booksPerPage ;;
  ret (Z.max 0 (Z.of_nat (length found) - page * perPage)).

(** [nextPage()] *)
Definition nextPage : method bool :=
  remaining <- remainingCount ;;
  if 0 <? remaining then
    page <- read currentPage ;;
    assign_currentPage (page + 1) ;;
    ret true
  else ret false.

(** *** Callers of the view *)

(** The calls the presentation layer makes on a view. *)
Inductive call : Type :=
| Search (filters : Filters.t)
| GetCurrentBookPage
| RemainingCount
| NextPage.

(** The state a call leaves behind. *)
Definition after {host : JsString.Host} (c : call) (this : t) : t :=
  match c with
  | Search filters => snd (search filters this)
  | GetCurrentBookPage => snd (getCurrentBookPage this)
  | RemainingCount => snd (remainingCount this)
  | NextPage => snd (nextPage this)
  end.

(** The state after a sequence of calls, first call first. *)
Definition afterAll {host : JsString.Host} (cs : list call) (this : t) : t :=
  fold_left (fun st c => after c st) cs this.

(** The criteria of the latest [search] among the calls, if any. *)
Definition lastCriteria (cs : list call) : option Filters.t :=
  fold_left (fun latest c => match c with Search filters => Some filters | _ => latest end)
            cs None.

(** [n] calls of [nextPage] in a row. *)
Fixpoint advance (n : nat) (this : t) : t :=
  match n with
  | O => this
  | S n' => advance n' (snd (nextPage this))
  end.

(** What [bookUI.js] shows in the list container: [initializeUI]
    renders the current page, and every [loadMoreBooks] that finds
    [nextPage()] true renders the next one after it.  [showAll] keeps
    asking for more until [nextPage()] is false and returns the pages in
    the order they were retrieved; [fuel] bounds the number of pages. *)
Fixpoint showAll (fuel : nat) (this : t) : option (list (list Book.t) * t) :=
  match fuel with
  | O => None
  | S fuel' =>
      let (page, st1) := getCurrentBookPage this in
      let (more, st2) := nextPage st1 in
      if more then
        match showAll fuel' st2 with
        | Some (pages, st3) => Some (page :: pages, st3)
        | None => None
        end
      else Some ([page], st2)
  end.

(** The view with its page cursor moved to [k]. *)
Definition withPage (k : Z) (this : t) : t :=
  {| books := books this; booksPerPage := booksPerPage this;
     currentPage := k; matches := matches this |}.

(** The page that [getCurrentBookPage] returns when [currentPage] is [k]. *)
Definition pageAt (k : Z) (this : t) : list Book.t :=
  fst (getCurrentBookPage (withPage k this)).

(** The pages numbered 1, ..., [currentPage], in that order. *)
Definition pagesUpToCurrent (this : t) : list (list Book.t) :=
  map (fun k => pageAt (Z.of_nat k) this)
      (seq 1 (Z.to_nat (currentPage this))).

End BookList.
(** ** The same methods on untyped entries, with [TypeError]

    [book.js] stores the fields of an entry as they come; [matches] calls
    [toLowerCase] on [this.title] and iterates [this.genres], and both
    raise a [TypeError] on a value of the wrong kind.  This module embeds
    [matches] and [search] with that failure path, so that the absence of
    exceptions on well-formed entries is a statement and not a convention.
    The filter object holds strings, as [Object.fromEntries(formData)]
    gives them.

    A field holds a value that a data file can hold: a JSON value, or
    [undefined] for a field that is missing.  Functions and objects that
    carry methods or an iterator of their own ([Set], [Map], instances of
    classes) are not among them. *)

Module Dyn.

#[local] Set Warnings "-register-all".

Inductive value : Type :=
| Undefined
| Null
| Boolean (b : bool)
| Number (n : Z)
| Str (s : JsString.t)
| Array (elems : list value)
| Obj (properties : list (JsString.t * value)).

Inductive error : Type := TypeError.

(** The outcome of evaluating an expression or a method body. *)
Inductive completion (A : Type) : Type :=
| Normal (a : A)
| Throw (e : error).
Arguments Normal {A} a.
Arguments Throw {A} e.

Definition andThen {A B : Type} (c : completion A) (k : A -> completion B)
  : completion B :=
  match c with
  | Normal a => k a
  | Throw e => Throw e
  end.

(** [new Date(arg)]; the constructor accepts every value. *)
Inductive date : Type := NewDate (arg : value).

Record book : Type := mkBook
  { id : value;
    title : value;
    author : value;
    image : value;
    description : value;
    published : date;
    genres : value }.

(** [v.toLowerCase()]: defined on strings only; [undefined] and [null]
    have no properties, and the other kinds have no method of that name
    (a property [toLowerCase] of a plain object holds data, which cannot
    be called). *)
Definition callToLowerCase {host : JsString.Host} (v : value)
  : completion JsString.t :=
  match v with
  | Str s => Normal (JsString.toLowerCase s)
  | _ => Throw TypeError
  end.

(** The first and the second half of a surrogate pair. *)
Definition isLeadSurrogate (c : JsString.codeUnit) : bool :=
  ((55296 <=? c) && (c <=? 56319))%N.
Definition isTrailSurrogate (c : JsString.codeUnit) : bool :=
  ((56320 <=? c) && (c <=? 57343))%N.

(** The strings that iterating a string yields: one per code point, a
    surrogate pair staying together. *)
Fixpoint codePoints (s : JsString.t) : list value :=
  match s with
  | [] => []
  | c :: rest =>
      match rest with
      | d :: rest' =>
          if isLeadSurrogate c && isTrailSurrogate d
          then Str [c; d] :: codePoints rest'
          else Str [c] :: codePoints rest
      | [] => [Str [c]]
      end
  end.

(** The values that [for (const x of v)] visits: the elements of an
    array, the characters of a string; the other kinds are not iterable. *)
Definition iterate (v : value) : completion (list value) :=
  match v with
  | Array elems => Normal elems
  | Str s => Normal (codePoints s)
  | _ => Throw TypeError
  end.

(** [v === s] for a string [s] *)
Definition strictEqStr (v : value) (s : JsString.t) : bool :=
  match v with
  | Str s' => JsString.strictEq s' s
  | _ => false
  end.

Fixpoint genreLoop (genreMatch : bool) (genres : list value) (genre : JsString.t) : bool :=
  match genres with
  | [] => genreMatch
  | singleGenre :: rest =>
      if genreMatch then genreMatch
      else genreLoop (if strictEqStr singleGenre genre then true else genreMatch)
                     rest genre
  end.

(** [matches(filters)]; [||] evaluates its right operand only when the
    left one is falsy. *)
Definition matches {host : JsString.Host} (this : book) (filters : Filters.t)
  : completion bool :=
  andThen
    (if negb (JsString.truthy (JsString.trim (Filters.title filters)))
     then Normal true
     else andThen (callToLowerCase (title this)) (fun lowered =>
            Normal (JsString.includes lowered
                      (JsString.toLowerCase (Filters.title filters)))))
    (fun titleMatch =>
       let authorMatch :=
         JsString.strictEq (Filters.author filters) (JsString.lit "any")
         || strictEqStr (author this) (Filters.author filters) in
       andThen (iterate (genres this)) (fun visited =>
         let genreMatch :=
           genreLoop (JsString.strictEq (Filters.genre filters) (JsString.lit "any"))
                     visited (Filters.genre filters) in
         Normal (titleMatch && authorMatch && genreMatch))).

Record view : Type := mkView
  { books : list book;
    booksPerPage : Z;
    currentPage : Z;
    found : list book }.

(** [arr.filter(callback)] with a callback that may throw: the first
    exception ends the traversal. *)
Fixpoint filter (callback : book -> completion bool) (arr : list book)
  : completion (list book) :=
  match arr with
  | [] => Normal []
  | x :: rest =>
      andThen (callback x) (fun keep =>
        andThen (filter callback rest) (fun kept =>
          Normal (if keep then x :: kept else kept)))
  end.

(** [search(filters)]; [found] is the field [matches] of the view.  An
    exception in the filter leaves both assignments undone. *)
Definition search {host : JsString.Host} (filters : Filters.t) (this : view)
  : completion (list book) * view :=
  match filter (fun b => matches b filters) (books this) with
  | Throw e => (Throw e, this)
  | Normal kept =>
      (Normal kept,
       {| books := books this; booksPerPage := booksPerPage this;
          currentPage := 1; found := kept |})
  end.

(** A typed entry as an untyped one. *)
Definition ofBook (b : Book.t) : book :=
  {| id := Str (Book.id b);
     title := Str (Book.title b);
     author := Str (Book.author b);
     image := Str (Book.image b);
     description := Str (Book.description b);
     published := match Book.published b with Book.NewDate p => NewDate (Str p) end;
     genres := Array (map Str (Book.genres b)) |}.

Definition ofView (v : BookList.t) : view :=
  {| books := map ofBook (BookList.books v);
     booksPerPage := BookList.booksPerPage v;
     currentPage := BookList.currentPage v;
     found := map ofBook (BookList.matches v) |}.

End Dyn.
(** ** The specification's vocabulary *)

Module Spec.

(** The white space and line terminator code points of ECMAScript: TAB,
    LF, VT, FF, CR, SPACE, NO-BREAK SPACE, OGHAM SPACE MARK, EN QUAD to
    HAIR SPACE, LINE SEPARATOR, PARAGRAPH SEPARATOR, NARROW NO-BREAK
    SPACE, MEDIUM MATHEMATICAL SPACE, IDEOGRAPHIC SPACE and ZERO WIDTH
    NO-BREAK SPACE. *)
Definition whiteSpace : list JsString.codeUnit :=
  [9; 10; 11; 12; 13; 32; 160; 5760;
   8192; 8193; 8194; 8195; 8196; 8197; 8198; 8199; 8200; 8201; 8202;
   8232; 8233; 8239; 8287; 12288; 65279]%N.

(** "empty or whitespace-only" *)
Definition blank (s : JsString.t) : Prop :=
  Forall (fun c => In c whiteSpace) s.

(** [piece] stands somewhere inside [text], as one contiguous run. *)
Definition occursIn (piece text : JsString.t) : Prop :=
  exists before after_, text = before ++ piece ++ after_.

(** "case-insensitive substring containment": once both are put in lower
    case, [query] occurs in [text]. *)
Definition containsIgnoringCase {host : JsString.Host} (text query : JsString.t) : Prop :=
  occursIn (JsString.toLowerCase query) (JsString.toLowerCase text).

(** The three sub-tests, each on the one field it reads. *)
Definition titleTest {host : JsString.Host} (entryTitle criteriaTitle : JsString.t) : Prop :=
  blank criteriaTitle \/ containsIgnoringCase entryTitle criteriaTitle.

Definition authorTest (entryAuthor criteriaAuthor : JsString.t) : Prop :=
  criteriaAuthor = JsString.lit "any" \/ entryAuthor = criteriaAuthor.

Definition genreTest (genreIds : list JsString.t) (criteriaGenre : JsString.t) : Prop :=
  criteriaGenre = JsString.lit "any" \/ In criteriaGenre genreIds.

(** The identity filter [{title:'', authorId:'any', genreId:'any'}]. *)
Definition identityFilter : Filters.t :=
  {| Filters.title := JsString.lit "";
     Filters.author := JsString.lit "any";
     Filters.genre := JsString.lit "any" |}.

(** [l[from : to]] for bounds that are natural numbers: the elements at
    positions [from], ..., [to - 1] that exist. *)
Definition clampedSlice {A : Type} (l : list A) (from to : nat) : list A :=
  take (to - from) (drop from l).

(** "a filtered view of [allEntries] using the most recently applied
    criteria (or the identity filter before any search)" *)
Definition selected {host : JsString.Host}
    (latest : option Filters.t) (all : list Book.t) : list Book.t :=
  List.filter (fun book => Book.matches book (default identityFilter latest)) all.

(** A view as the data model describes it: a positive page size and a
    1-based page cursor. *)
Definition wellFormed (v : BookList.t) : Prop :=
  1 <= BookList.booksPerPage v /\ 1 <= BookList.currentPage v.

End Spec.

(** ** The tables of [data.js] *)

Module Data.

(** [authors] and [genres] are object literals that map an id to a name.
    A table is the list of its [Object.entries], in that order. *)
Definition table : Type := list (JsString.t * JsString.t).

(** The name that the table itself stores under [key], if any. *)
Fixpoint getOwn (t : table) (key : JsString.t) : option JsString.t :=
  match t with
  | [] => None
  | (k, v) :: rest => if JsString.strictEq k key then Some v else getOwn rest key
  end.

(** The text of [${table[key]}]: the name stored under [key]; failing
    that, the member that the table inherits from [Object.prototype] under
    that name; failing that, [undefined]. *)
Definition text {host : JsString.Host} (t : table) (key : JsString.t) : JsString.t :=
  match getOwn t key with
  | Some name => name
  | None =>
      match JsString.inheritedText key with
      | Some member => member
      | None => JsString.lit "undefined"
      end
  end.

End Data.

(** ** The part of the document that [bookUI.js] reads and writes *)

Module Dom.

(** The [<button>] that [previewElement] builds.  Its [innerHTML] is a
    template literal; the three fields after [dataPreview] are the values
    interpolated into it, in order. *)
Record previewButton : Type := mkPreview
  { classList : JsString.t;
    dataPreview : JsString.t;
    imageSrc : JsString.t;
    titleText : JsString.t;
    authorText : JsString.t }.

(** An [<option>] of a dropdown. *)
Record optionElement : Type := mkOption
  { value : JsString.t;
    innerText : JsString.t }.

(** [[data-list-items]], [[data-list-button]] and [[data-list-message]]:
    the children of the list container, the [disabled] flag of the "Show
    more" button, the number interpolated into its [innerHTML], and the
    presence of the class [list__message_show] on the message. *)
Record listArea : Type := mkList
  { items : list previewButton;
    buttonDisabled : bool;
    buttonRemaining : Z;
    messageShow : bool }.

(** The [open] flags of the two overlays, and whether [focus()] was
    called on [[data-search-title]]. *)
Record overlays : Type := mkOverlays
  { searchOpen : bool;
    settingsOpen : bool;
    searchTitleFocused : bool }.

(** [[data-settings-theme]].value and the two CSS variables. *)
Record theme : Type := mkTheme
  { settingsTheme : JsString.t;
    colorDark : JsString.t;
    colorLight : JsString.t }.

(** The children of [[data-search-genres]] and [[data-search-authors]]. *)
Record selects : Type := mkSelects
  { searchGenres : list optionElement;
    searchAuthors : list optionElement }.

(** The detail dialog [[data-list-active]] and the elements inside it. *)
Record details : Type := mkDetails
  { open : bool;
    blur : JsString.t;
    image : JsString.t;
    title : JsString.t;
    subtitle : JsString.t;
    description : JsString.t }.

Record t : Type := mk
  { list_ : listArea;
    overlay : overlays;
    colours : theme;
    dropdowns : selects;
    active : details;
    scrolledToTop : bool }.

Definition withList (l : listArea) (d : t) : t :=
  {| list_ := l; overlay := overlay d; colours := colours d;
     dropdowns := dropdowns d; active := active d;
     scrolledToTop := scrolledToTop d |}.

Definition withOverlay (o : overlays) (d : t) : t :=
  {| list_ := list_ d; overlay := o; colours := colours d;
     dropdowns := dropdowns d; active := active d;
     scrolledToTop := scrolledToTop d |}.

Definition withColours (c : theme) (d : t) : t :=
  {| list_ := list_ d; overlay := overlay d; colours := c;
     dropdowns := dropdowns d; active := active d;
     scrolledToTop := scrolledToTop d |}.

Definition withDropdowns (s : selects) (d : t) : t :=
  {| list_ := list_ d; overlay := overlay d; colours := colours d;
     dropdowns := s; active := active d;
     scrolledToTop := scrolledToTop d |}.

Definition withActive (a : details) (d : t) : t :=
  {| list_ := list_ d; overlay := overlay d; colours := colours d;
     dropdowns := dropdowns d; active := a;
     scrolledToTop := scrolledToTop d |}.

Definition withScrolledToTop (b : bool) (d : t) : t :=
  {| list_ := list_ d; overlay := overlay d; colours := colours d;
     dropdowns := dropdowns d; active := active d;
     scrolledToTop := b |}.

End Dom.

(** ** [bookUI.js], with [previewElement] of [book.js]

    The methods are state transformers on the pair of the view and the
    document.  Form data arrives decoded: [handleSearch] takes the filter
    object and [handleThemeUpdate] the theme name; [handleBookClick] takes
    the event path as the list of [node?.dataset?.preview], [None] for
    [undefined].  [event.preventDefault()] and the registration of the
    listeners leave no trace in this state. *)

Module BookUI.

Section WithData.

Context {host : JsString.Host}.

(** [authors] and [genres] of [data.js]. *)
Variables authors genres : Data.table.

(** The text of [${book.published.getFullYear()}]. *)
Variable getFullYear : Book.Date -> JsString.t.

Record t : Type := mk
  { bookList : BookList.t;
    dom : Dom.t }.

Definition withDom (d : Dom.t) (this : t) : t :=
  {| bookList := bookList this; dom := d |}.

(** [previewElement()] of [book.js] *)
Definition previewElement (this : Book.t) : Dom.previewButton :=
  {| Dom.classList := JsString.lit "preview";
     Dom.dataPreview := Book.id this;
     Dom.imageSrc := Book.image this;
     Dom.titleText := Book.title this;
     Dom.authorText := Data.text authors (Book.author this) |}.

(** [renderBooks(books = this.bookList.getCurrentBookPage())], called
    without argument everywhere. *)
Definition renderBooks (this : t) : t :=
  let (books, bl) := BookList.getCurrentBookPage (bookList this) in
  let fragment := map previewElement books in
  let l := Dom.list_ (dom this) in
  let container := if BookList.currentPage bl =? 1 then [] else Dom.items l in
  {| bookList := bl;
     dom := Dom.withList
              {| Dom.items := container ++ fragment;
                 Dom.buttonDisabled := Dom.buttonDisabled l;
                 Dom.buttonRemaining := Dom.buttonRemaining l;
                 Dom.messageShow := Dom.messageShow l |}
              (dom this) |}.

(** [applyTheme(theme)] *)
Definition applyTheme (theme : JsString.t) (this : t) : t :=
  let darkColor :=
    if JsString.strictEq theme (JsString.lit "night")
    then JsString.lit "255, 255, 255" else JsString.lit "10, 10, 20" in
  let lightColor :=
    if JsString.strictEq theme (JsString.lit "night")
    then JsString.lit "10, 10, 20" else JsString.lit "255, 255, 255" in
  withDom
    (Dom.withColours
       {| Dom.settingsTheme := Dom.settingsTheme (Dom.colours (dom this));
          Dom.colorDark := darkColor;
          Dom.colorLight := lightColor |}
       (dom this))
    this.

(** [setupTheme()]; [isDark] is
    [window.matchMedia('(prefers-color-scheme: dark)').matches]. *)
Definition setupTheme (isDark : bool) (this : t) : t :=
  let theme := if isDark then JsString.lit "night" else JsString.lit "day" in
  let c := Dom.colours (dom this) in
  applyTheme theme
    (withDom
       (Dom.withColours
          {| Dom.settingsTheme := theme;
             Dom.colorDark := Dom.colorDark c;
             Dom.colorLight := Dom.colorLight c |}
          (dom this))
       this).

(** The fragment that [populateSelect] builds: the default option, then
    one option per entry of [options]. *)
Definition optionsFragment (options : Data.table) (defaultText : JsString.t)
  : list Dom.optionElement :=
  fold_left
    (fun fragment entry =>
       let (id, name) := entry : JsString.t * JsString.t in
       fragment ++ [ {| Dom.value := id; Dom.innerText := name |} ])
    options
    [ {| Dom.value := JsString.lit "any"; Dom.innerText := defaultText |} ].

(** [populateDropdowns()], with the two calls of [populateSelect]. *)
Definition populateDropdowns (this : t) : t :=
  let s := Dom.dropdowns (dom this) in
  let s1 :=
    {| Dom.searchGenres := Dom.searchGenres s ++ optionsFragment genres (JsString.lit "All Genres");
       Dom.searchAuthors := Dom.searchAuthors s |} in
  let s2 :=
    {| Dom.searchGenres := Dom.searchGenres s1;
       Dom.searchAuthors := Dom.searchAuthors s1 ++ optionsFragment authors (JsString.lit "All Authors") |} in
  withDom (Dom.withDropdowns s2 (dom this)) this.

(** [updateShowMoreButton()] *)
Definition updateShowMoreButton (this : t) : t :=
  let (remaining, bl) := BookList.remainingCount (bookList this) in
  let l := Dom.list_ (dom this) in
  {| bookList := bl;
     dom := Dom.withList
              {| Dom.items := Dom.items l;
                 Dom.buttonDisabled := remaining <=? 0;
                 Dom.buttonRemaining := remaining;
                 Dom.messageShow := Dom.messageShow l |}
              (dom this) |}.

(** The two overlays that [toggleOverlay] is called on. *)
Inductive overlayName : Type := SearchOverlay | SettingsOverlay.

(** [toggleOverlay(name, show)] *)
Definition toggleOverlay (name : overlayName) (show : bool) (this : t) : t :=
  let o := Dom.overlay (dom this) in
  let opened :=
    match name with
    | SearchOverlay =>
        {| Dom.searchOpen := show; Dom.settingsOpen := Dom.settingsOpen o;
           Dom.searchTitleFocused := Dom.searchTitleFocused o |}
    | SettingsOverlay =>
        {| Dom.searchOpen := Dom.searchOpen o; Dom.settingsOpen := show;
           Dom.searchTitleFocused := Dom.searchTitleFocused o |}
    end in
  let focused :=
    if show && match name with SearchOverlay => true | SettingsOverlay => false end
    then {| Dom.searchOpen := Dom.searchOpen opened;
            Dom.settingsOpen := Dom.settingsOpen opened;
            Dom.searchTitleFocused := true |}
    else opened in
  withDom (Dom.withOverlay focused (dom this)) this.

(** [handleSearch(event)]; [filters] is [Object.fromEntries(formData)]. *)
Definition handleSearch (filters : Filters.t) (this : t) : t :=
  let (results, bl) := BookList.search filters (bookList this) in
  let this1 := renderBooks {| bookList := bl; dom := dom this |} in
  let l := Dom.list_ (dom this1) in
  let this2 :=
    withDom
      (Dom.withList
         {| Dom.items := Dom.items l;
            Dom.buttonDisabled := Dom.buttonDisabled l;
            Dom.buttonRemaining := Dom.buttonRemaining l;
            Dom.messageShow := Z.of_nat (length results) <? 1 |}
         (dom this1))
      this1 in
  let this3 := updateShowMoreButton this2 in
  let this4 := toggleOverlay SearchOverlay false this3 in
  withDom (Dom.withScrolledToTop true (dom this4)) this4.

(** [handleThemeUpdate(event)]; [theme] is the form's [theme] entry. *)
Definition handleThemeUpdate (theme : JsString.t) (this : t) : t :=
  toggleOverlay SettingsOverlay false (applyTheme theme this).

(** The loop of [handleBookClick] over the event path, with [active] as
    the loop-carried variable; [find] gives [undefined] ([None]) when no
    entry has the id. *)
Fixpoint findActive (books : list Book.t) (active : option Book.t)
    (pathArray : list (option JsString.t)) : option Book.t :=
  match pathArray with
  | [] => active
  | node :: rest =>
      match active with
      | Some _ => active
      | None =>
          findActive books
            (match node with
             | Some preview =>
                 if JsString.truthy preview
                 then List.find (fun book => JsString.strictEq (Book.id book) preview) books
                 else active
             | None => active
             end)
            rest
      end
  end.

(** [showBookDetails(book)] *)
Definition showBookDetails (book : Book.t) (this : t) : t :=
  withDom
    (Dom.withActive
       {| Dom.open := true;
          Dom.blur := Book.image book;
          Dom.image := Book.image book;
          Dom.title := Book.title book;
          Dom.subtitle :=
            Data.text authors (Book.author book)
            ++ JsString.lit " (" ++ getFullYear (Book.published book)
            ++ JsString.lit ")";
          Dom.description := Book.description book |}
       (dom this))
    this.

(** [handleBookClick(event)] *)
Definition handleBookClick (pathArray : list (option JsString.t)) (this : t) : t :=
  match findActive (BookList.books (bookList this)) None pathArray with
  | Some active => showBookDetails active this
  | None => this
  end.

(** [loadMoreBooks()] *)
Definition loadMoreBooks (this : t) : t :=
  let (more, bl) := BookList.nextPage (bookList this) in
  if more
  then updateShowMoreButton (renderBooks {| bookList := bl; dom := dom this |})
  else {| bookList := bl; dom := dom this |}.

(** [initializeUI()] *)
Definition initializeUI (isDark : bool) (this : t) : t :=
  updateShowMoreButton (populateDropdowns (setupTheme isDark (renderBooks this))).

(** [createBookUI(bookList)], run on a document in state [document]. *)
Definition createBookUI (isDark : bool) (bookList : BookList.t) (document : Dom.t) : t :=
  initializeUI isDark {| bookList := bookList; dom := document |}.

(** The events that [setupEventListeners] listens to, in its order. *)
Inductive event : Type :=
| SearchSubmit (filters : Filters.t)
| SearchCancel
| HeaderSearch
| SettingsSubmit (theme : JsString.t)
| SettingsCancel
| HeaderSettings
| ListButtonClick
| ListItemsClick (pathArray : list (option JsString.t))
| ListClose.

(** The listener that [setupEventListeners] attaches for each event. *)
Definition handle (e : event) (this : t) : t :=
  match e with
  | SearchSubmit filters => handleSearch filters this
  | SearchCancel => toggleOverlay SearchOverlay false this
  | HeaderSearch => toggleOverlay SearchOverlay true this
  | SettingsSubmit theme => handleThemeUpdate theme this
  | SettingsCancel => toggleOverlay SettingsOverlay false this
  | HeaderSettings => toggleOverlay SettingsOverlay true this
  | ListButtonClick => loadMoreBooks this
  | ListItemsClick pathArray => handleBookClick pathArray this
  | ListClose =>
      let a := Dom.active (dom this) in
      withDom
        (Dom.withActive
           {| Dom.open := false; Dom.blur := Dom.blur a; Dom.image := Dom.image a;
              Dom.title := Dom.title a; Dom.subtitle := Dom.subtitle a;
              Dom.description := Dom.description a |}
           (dom this))
        this
  end.

(** The state after a sequence of events, first event first. *)
Definition handleAll (es : list event) (this : t) : t :=
  fold_left (fun st e => handle e st) es this.

End WithData.

End BookUI.
(** ** The search handler of the single-file version

    The listing kept in [README.md] filters the raw records of [data.js]
    in the submit listener itself. *)

Module SingleFile.

(** The loop [for (const book of books) { ... result.push(book) }] of the
    submit listener, with [result] as the loop-carried variable. *)
Definition searchResult {host : JsString.Host}
    (filters : Filters.t) (books : list BookData.t)
  : list BookData.t :=
  fold_left
    (fun result book =>
       let genreMatch :=
         Book.genreLoop (JsString.strictEq (Filters.genre filters) (JsString.lit "any"))
                        (BookData.genres book) (Filters.genre filters) in
       if (JsString.strictEq (JsString.trim (Filters.title filters)) (JsString.lit "")
           || JsString.includes (JsString.toLowerCase (BookData.title book))
                                (JsString.toLowerCase (Filters.title filters)))
          && (JsString.strictEq (Filters.author filters) (JsString.lit "any")
              || JsString.strictEq (BookData.author book) (Filters.author filters))
          && genreMatch
       then result ++ [book]
       else result)
    books [].

End SingleFile.

(** ** What the list area should show *)

Module UISpec.

(** The list area agrees with the view: the container holds the previews
    of the first [currentPage * booksPerPage] matches, in order, and the
    "Show more" button carries [remainingCount()] and is disabled exactly
    when that count is 0. *)
Definition listConsistent {host : JsString.Host}
    (authors : Data.table) (ui : BookUI.t) : Prop :=
  let v := BookUI.bookList ui in
  let l := Dom.list_ (BookUI.dom ui) in
  Dom.items l
  = map (BookUI.previewElement authors)
        (take (Z.to_nat (BookList.currentPage v * BookList.booksPerPage v))
              (BookList.matches v))
  /\ Dom.buttonRemaining l = fst (BookList.remainingCount v)
  /\ Dom.buttonDisabled l = (fst (BookList.remainingCount v) <=? 0).

(** The theme applied last: the one of the latest settings form among the
    events, or the one [setupTheme] chose when there was none. *)
Definition lastTheme (isDark : bool) (events : list BookUI.event) : JsString.t :=
  fold_left
    (fun theme e => match e with BookUI.SettingsSubmit chosen => chosen | _ => theme end)
    events
    (if isDark then JsString.lit "night" else JsString.lit "day").

End UISpec.
(** ** Sample data

    The two entries of the specification's example scenario, and a third
    one for pages that are not full. *)

Abbreviation str := JsString.lit.

Definition goFish : BookData.t :=
  BookData.mk (str "1") (str "Go Fish") (str "a1") (str "") (str "") (str "")
              [str "g1"].
Definition rustPrimer : BookData.t :=
  BookData.mk (str "2") (str "Rust Primer") (str "a2") (str "") (str "") (str "")
              [str "g2"].
Definition seaTales : BookData.t :=
  BookData.mk (str "3") (str "Sea Tales") (str "a1") (str "") (str "") (str "")
              [str "g2"; str "g1"].

(** [createBookList([goFish, rustPrimer], 1)] *)
Definition twoBooks : BookList.t := BookList.createBookList [goFish; rustPrimer] 1.

(** [createBookList([goFish, rustPrimer, seaTales], 2)] *)
Definition threeBooks : BookList.t :=
  BookList.createBookList [goFish; rustPrimer; seaTales] 2.

(** [{title: '', author: 'any', genre: 'g1'}] *)
Definition genreG1 : Filters.t := Filters.mk (str "") (str "any") (str "g1").

(** An author table that knows [a1] and [a2], and a year for every date. *)
Definition sampleAuthors : Data.table :=
  [(str "a1", str "Ann Lee"); (str "a2", str "Bo Ray")].
Definition sampleGenres : Data.table :=
  [(str "g1", str "Games"); (str "g2", str "Guides")].
Definition sampleYear (d : Book.Date) : JsString.t := str "2001".

(** A document with an empty list, closed overlays and no options. *)
Definition blankDocument : Dom.t :=
  {| Dom.list_ := Dom.mkList [] false 0 false;
     Dom.overlay := Dom.mkOverlays false false false;
     Dom.colours := Dom.mkTheme (str "") (str "") (str "");
     Dom.dropdowns := Dom.mkSelects [] [];
     Dom.active := Dom.mkDetails false (str "") (str "") (str "") (str "") (str "");
     Dom.scrolledToTop := false |}.

(** Lower-casing of the letters A to Z, every other code unit kept: what
    [toLowerCase] does on a string of ASCII characters. *)
Definition asciiToLowerCase (s : JsString.t) : JsString.t :=
  map (fun c => if ((65 <=? c) && (c <=? 90))%N then (c + 32)%N else c) s.

(** A host for the sample data, whose strings are ASCII: its
    [toLowerCase] is [asciiToLowerCase], and of the members of
    [Object.prototype] it knows [constructor]. *)
Definition sampleHost : JsString.Host :=
  {| JsString.toLowerCase := asciiToLowerCase;
     JsString.inheritedText :=
       fun key =>
         if JsString.strictEq key (str "constructor")
         then Some (str "function Object() { [native code] }")
         else None |}.

(** * Properties

    Everything below holds for every host. *)

Section WithHost.

Context {host : JsString.Host}.

(** ** Strings *)

Section StringFacts.

Import JsString.

Lemma occursAtStart_iff (p s : JsString.t) :
  occursAtStart p s = true <-> exists rest, s = p ++ rest.
Proof.
  revert s. induction p as [|a p IH]; intros s; simpl.
  - split; [intros _; exists s; reflexivity | reflexivity].
  - destruct s as [|b s].
    + split; [discriminate | intros [rest H]; discriminate].
    + rewrite andb_true_iff, N.eqb_eq, IH. split.
      * intros [-> [rest ->]]. exists rest. reflexivity.
      * intros [rest H]. injection H as -> ->. split; [reflexivity | eauto].
Qed.

Lemma includes_iff (s q : JsString.t) :
  includes s q = true <-> Spec.occursIn q s.
Proof.
  unfold Spec.occursIn.
  induction s as [|c s IH]; simpl; rewrite orb_true_iff, occursAtStart_iff.
  - split.
    + intros [[rest H]|H]; [|discriminate]. exists [], rest. exact H.
    + intros [before [after_ H]]. left.
      destruct before; [exists after_; exact H | discriminate].
  - rewrite IH. split.
    + intros [[rest H]|[before [after_ H]]].
      * exists [], rest. exact H.
      * exists (c :: before), after_. simpl. congruence.
    + intros [before [after_ H]]. destruct before as [|c' before].
      * left. exists after_. exact H.
      * right. exists before, after_. simpl in H. congruence.
Qed.

(** The comparisons of [isWhiteSpace] pick out exactly the listed code
    points. *)
Lemma isWhiteSpace_iff (c : codeUnit) :
  isWhiteSpace c = true <-> In c Spec.whiteSpace.
Proof.
  unfold isWhiteSpace, Spec.whiteSpace. cbn [In].
  rewrite !orb_true_iff, !andb_true_iff, !N.leb_le, !N.eqb_eq. lia.
Qed.

Lemma blank_cons (c : codeUnit) (s : JsString.t) :
  Spec.blank (c :: s) <-> isWhiteSpace c = true /\ Spec.blank s.
Proof. unfold Spec.blank. rewrite Forall_cons, isWhiteSpace_iff. reflexivity. Qed.

Lemma trimEnd_empty (s : JsString.t) : trimEnd s = [] <-> Spec.blank s.
Proof.
  induction s as [|c s IH]; simpl.
  - split; [constructor | reflexivity].
  - rewrite blank_cons, <- IH. destruct (trimEnd s) eqn:E.
    + destruct (isWhiteSpace c); split; intros H;
        try reflexivity; try discriminate; try tauto.
      destruct H; discriminate.
    + split; [discriminate | intros [_ H]; discriminate].
Qed.

Lemma trimStart_blank (s : JsString.t) : Spec.blank (trimStart s) <-> Spec.blank s.
Proof.
  induction s as [|c s IH]; simpl; [tauto|].
  destruct (isWhiteSpace c) eqn:E.
  - rewrite IH, blank_cons. tauto.
  - tauto.
Qed.

Lemma trim_falsy (s : JsString.t) : truthy (trim s) = false <-> Spec.blank s.
Proof.
  rewrite <- trimStart_blank, <- trimEnd_empty. unfold trim.
  destruct (trimEnd (trimStart s)); simpl; split; congruence.
Qed.

Lemma strictEq_iff (a b : JsString.t) : strictEq a b = true <-> a = b.
Proof.
  revert b. induction a as [|x a IH]; intros [|y b]; simpl;
    try (split; [discriminate || reflexivity | discriminate || reflexivity]).
  rewrite andb_true_iff, N.eqb_eq, IH. split; [intros [-> ->] | intros [= -> ->]]; auto.
Qed.

Lemma strictEq_refl (a : JsString.t) : strictEq a a = true.
Proof. now apply strictEq_iff. Qed.

End StringFacts.

(** ** The entry predicate *)

Section MatchesFacts.

Import JsString.

Lemma genreLoop_orb (genreMatch : bool) (genres : list JsString.t) (genre : JsString.t) :
  Book.genreLoop genreMatch genres genre
  = genreMatch || existsb (fun singleGenre => strictEq singleGenre genre) genres.
Proof.
  revert genreMatch. induction genres as [|g genres IH]; intros genreMatch; simpl.
  - now rewrite orb_false_r.
  - destruct genreMatch; [reflexivity|]. rewrite IH.
    now destruct (strictEq g genre).
Qed.

Lemma genreLoop_iff (genres : list JsString.t) (criteriaGenre : JsString.t) :
  Book.genreLoop (strictEq criteriaGenre (lit "any")) genres criteriaGenre = true
  <-> Spec.genreTest genres criteriaGenre.
Proof.
  rewrite genreLoop_orb, orb_true_iff, strictEq_iff, existsb_exists.
  unfold Spec.genreTest. split.
  - intros [H|[g [Hin Hg]]]; [now left|right].
    apply strictEq_iff in Hg. now subst.
  - intros [H|H]; [now left|right]. exists criteriaGenre.
    split; [exact H | now apply strictEq_iff].
Qed.

Lemma titleMatch_iff (entryTitle criteriaTitle : JsString.t) :
  negb (truthy (trim criteriaTitle))
  || includes (toLowerCase entryTitle) (toLowerCase criteriaTitle) = true
  <-> Spec.titleTest entryTitle criteriaTitle.
Proof.
  rewrite orb_true_iff, negb_true_iff, trim_falsy, includes_iff.
  reflexivity.
Qed.

Lemma authorMatch_iff (entryAuthor criteriaAuthor : JsString.t) :
  strictEq criteriaAuthor (lit "any") || strictEq entryAuthor criteriaAuthor = true
  <-> Spec.authorTest entryAuthor criteriaAuthor.
Proof. rewrite orb_true_iff, !strictEq_iff. reflexivity. Qed.

Lemma matches_iff (b : Book.t) (f : Filters.t) :
  Book.matches b f = true
  <-> Spec.titleTest (Book.title b) (Filters.title f)
      /\ Spec.authorTest (Book.author b) (Filters.author f)
      /\ Spec.genreTest (Book.genres b) (Filters.genre f).
Proof.
  unfold Book.matches.
  rewrite !andb_true_iff, titleMatch_iff, authorMatch_iff, genreLoop_iff.
  tauto.
Qed.

Lemma matches_identityFilter (b : Book.t) :
  Book.matches b Spec.identityFilter = true.
Proof.
  apply matches_iff. repeat split.
  - left. constructor.
  - now left.
  - now left.
Qed.


End MatchesFacts.

(** ** Slicing *)

Section SliceFacts.

Context {A : Type}.
Implicit Types (l : list A) (a b : Z).

Lemma slice_nonneg l a b :
  0 <= a -> a <= b ->
  slice l a b = Spec.clampedSlice l (Z.to_nat a) (Z.to_nat b).
Proof.
  intros Ha Hab. unfold slice, Spec.clampedSlice.
  destruct (Z.ltb_spec a 0) as [?|_]; [lia|].
  destruct (Z.ltb_spec b 0) as [?|_]; [lia|].
  destruct (Z_le_gt_dec a (Z.of_nat (length l))) as [Hal|Hal].
  - rewrite (Z.min_l a) by lia.
    destruct (Z_le_gt_dec b (Z.of_nat (length l))) as [Hbl|Hbl].
    + rewrite Z.min_l by lia. f_equal. lia.
    + rewrite Z.min_r by lia.
      rewrite !take_ge; [reflexivity | |]; rewrite length_drop; lia.
  - rewrite !Z.min_r by lia.
    rewrite (drop_ge l (Z.to_nat a)) by lia.
    rewrite Z.sub_diag, take_0, take_nil. reflexivity.
Qed.

Lemma slice_sublist l a b : sublist (slice l a b) l.
Proof.
  unfold slice. etransitivity; [apply sublist_take | apply sublist_drop].
Qed.

Lemma clampedSlice_length l (from to : nat) :
  length (Spec.clampedSlice l from to)
  = Nat.min (to - from) (length l - from).
Proof. unfold Spec.clampedSlice. now rewrite length_take, length_drop. Qed.

End SliceFacts.

(** ** The view, one method at a time *)

Section ViewFacts.

Import BookList.
Implicit Types (v : BookList.t) (f : Filters.t).

Lemma search_eq f v :
  search f v
  = (List.filter (fun book => Book.matches book f) (books v),
     {| books := books v; booksPerPage := booksPerPage v; currentPage := 1;
        matches := List.filter (fun book => Book.matches book f) (books v) |}).
Proof. reflexivity. Qed.

Lemma getCurrentBookPage_eq v :
  getCurrentBookPage v
  = (slice (matches v) ((currentPage v - 1) * booksPerPage v)
                       ((currentPage v - 1) * booksPerPage v + booksPerPage v),
     v).
Proof. reflexivity. Qed.

Lemma remainingCount_eq v :
  remainingCount v
  = (Z.max 0 (Z.of_nat (length (matches v)) - currentPage v * booksPerPage v), v).
Proof. reflexivity. Qed.

Lemma nextPage_eq v :
  nextPage v
  = if 0 <? fst (remainingCount v)
    then (true, withPage (currentPage v + 1) v)
    else (false, v).
Proof.
  unfold nextPage, bind. rewrite remainingCount_eq. simpl.
  destruct (0 <? _); reflexivity.
Qed.

Lemma withPage_same v : withPage (currentPage v) v = v.
Proof. now destruct v. Qed.

Lemma filter_sublist {A : Type} (p : A -> bool) (l : list A) :
  sublist (List.filter p l) l.
Proof.
  induction l as [|x l IH]; simpl; [constructor|].
  destruct (p x); now constructor.
Qed.

(** A sublist whose elements all pass [p] survives the filter. *)
Lemma sublist_filter_max {A : Type} (p : A -> bool) (k l : list A) :
  sublist k l -> (forall x, In x k -> p x = true) ->
  sublist k (List.filter p l).
Proof.
  induction 1 as [|x k l _ IH|x k l _ IH]; intros Hp; simpl.
  - constructor.
  - rewrite (Hp x) by now left. constructor. apply IH.
    intros y Hy. apply Hp. now right.
  - destruct (p x); [constructor|]; now apply IH.
Qed.

Lemma filter_all {A : Type} (p : A -> bool) (l : list A) :
  (forall x, In x l -> p x = true) -> List.filter p l = l.
Proof.
  induction l as [|x l IH]; intros Hp; simpl; [reflexivity|].
  rewrite (Hp x) by now left. f_equal. apply IH.
  intros y Hy. apply Hp. now right.
Qed.

Lemma filter_none {A : Type} (p : A -> bool) (l : list A) :
  (forall x, In x l -> p x = false) -> List.filter p l = [].
Proof.
  induction l as [|x l IH]; intros Hp; simpl; [reflexivity|].
  rewrite (Hp x) by now left. apply IH.
  intros y Hy. apply Hp. now right.
Qed.

Lemma nextPage_frame v :
  books (snd (nextPage v)) = books v
  /\ booksPerPage (snd (nextPage v)) = booksPerPage v
  /\ matches (snd (nextPage v)) = matches v.
Proof. rewrite nextPage_eq. destruct (0 <? _); simpl; auto. Qed.

Lemma advance_frame (n : nat) v :
  books (advance n v) = books v
  /\ booksPerPage (advance n v) = booksPerPage v
  /\ matches (advance n v) = matches v.
Proof.
  revert v. induction n as [|n IH]; intros v; simpl; [auto|].
  destruct (IH (snd (nextPage v))) as (-> & -> & ->). apply nextPage_frame.
Qed.

(** The page numbered [i + 1] holds the [booksPerPage] entries after
    the first [i * booksPerPage]. *)
Lemma pageAt_succ (i : nat) v :
  0 <= booksPerPage v ->
  pageAt (Z.of_nat i + 1) v
  = take (Z.to_nat (booksPerPage v))
         (drop (i * Z.to_nat (booksPerPage v)) (matches v)).
Proof.
  intros Hpp. unfold pageAt. rewrite getCurrentBookPage_eq. simpl.
  rewrite slice_nonneg by nia. unfold Spec.clampedSlice.
  f_equal; [|f_equal]; nia.
Qed.

Lemma getCurrentBookPage_pageAt v :
  fst (getCurrentBookPage v) = pageAt (currentPage v) v.
Proof. reflexivity. Qed.

End ViewFacts.

(** ** Searching *)

(** C1. Whatever the number [n] of [nextPage] calls made before it,
    [search filters] stores in [matches] the entries of [books] that
    satisfy [matches(filters)], in their original order, sets
    [currentPage] to 1 and returns the new [matches].  The stored list is
    a sublist of [books], holds exactly the entries of [books] that pass
    the filter, and contains every sublist of [books] whose entries all
    pass it. *)
Theorem search_filters_and_resets (v : BookList.t) (filters : Filters.t) (n : nat) :
  let before := BookList.advance n v in
  let result := fst (BookList.search filters before) in
  let after_ := snd (BookList.search filters before) in
  result = List.filter (fun book => Book.matches book filters) (BookList.books v)
  /\ BookList.matches after_ = result
  /\ BookList.currentPage after_ = 1
  /\ sublist result (BookList.books v)
  /\ (forall book, In book result
                   <-> In book (BookList.books v) /\ Book.matches book filters = true)
  /\ (forall others, sublist others (BookList.books v) ->
                     (forall book, In book others -> Book.matches book filters = true) ->
                     sublist others result).
Proof.
  intros before result after_. subst result after_.
  rewrite search_eq. simpl.
  destruct (advance_frame n v) as (Hb & _ & _). subst before. rewrite Hb.
  split; [reflexivity|]. split; [reflexivity|]. split; [reflexivity|].
  split; [apply filter_sublist|].
  split; [intros book; apply filter_In|].
  intros others Hs Hp. now apply sublist_filter_max.
Qed.

(** After a search the current page is the first [booksPerPage] entries
    of the new [matches]. *)
Lemma search_then_first_page (v : BookList.t) (filters : Filters.t) :
  0 <= BookList.booksPerPage v ->
  fst (BookList.getCurrentBookPage (snd (BookList.search filters v)))
  = take (Z.to_nat (BookList.booksPerPage v)) (fst (BookList.search filters v)).
Proof.
  intros Hpp. rewrite getCurrentBookPage_pageAt, search_eq. simpl.
  change 1 with (Z.of_nat 0 + 1).
  rewrite pageAt_succ by exact Hpp. reflexivity.
Qed.

(** C8. Searching with the identity filter
    [{title:'', author:'any', genre:'any'}] gives back all entries: the
    new [matches] is [books] itself, so same entries, same order, same
    number. *)
Theorem search_identity_filter (v : BookList.t) :
  fst (BookList.search Spec.identityFilter v) = BookList.books v
  /\ BookList.matches (snd (BookList.search Spec.identityFilter v)) = BookList.books v
  /\ length (BookList.matches (snd (BookList.search Spec.identityFilter v)))
     = length (BookList.books v).
Proof.
  rewrite search_eq. simpl.
  rewrite filter_all by (intros b _; apply matches_identityFilter).
  auto.
Qed.

(** ** Paging *)

Lemma pages_concat (n : nat) (v : BookList.t) :
  0 <= BookList.booksPerPage v ->
  concat (map (fun k => BookList.pageAt (Z.of_nat k) v) (seq 1 n))
  = take (n * Z.to_nat (BookList.booksPerPage v)) (BookList.matches v).
Proof.
  intros Hpp. induction n as [|n IH].
  - reflexivity.
  - rewrite seq_S, map_app, concat_app, IH. cbn [map concat].
    replace (Z.of_nat (1 + n)) with (Z.of_nat n + 1) by lia.
    rewrite pageAt_succ by exact Hpp.
    rewrite app_nil_r, take_take_drop. f_equal. lia.
Qed.

(** C4. [nextPage] adds exactly 1 to [currentPage] and returns [true]
    when [remainingCount()] is positive; otherwise it returns [false] and
    leaves the view as it was.  It returns [false] exactly when
    [remainingCount()] is 0.  After a successful call the remaining count
    is the old one minus [booksPerPage], clamped at 0, which is strictly
    less for a positive page size. *)
Theorem nextPage_advances_or_stays (v : BookList.t) :
  let remaining := fst (BookList.remainingCount v) in
  let after_ := snd (BookList.nextPage v) in
  (0 < remaining ->
   BookList.nextPage v = (true, BookList.withPage (BookList.currentPage v + 1) v))
  /\ (~ 0 < remaining -> BookList.nextPage v = (false, v))
  /\ (fst (BookList.nextPage v) = false <-> remaining = 0)
  /\ (fst (BookList.nextPage v) = true ->
      BookList.currentPage after_ = BookList.currentPage v + 1
      /\ BookList.matches after_ = BookList.matches v
      /\ fst (BookList.remainingCount after_)
         = Z.max 0 (remaining - BookList.booksPerPage v)
      /\ (1 <= BookList.booksPerPage v ->
          fst (BookList.remainingCount after_) < remaining)).
Proof.
  intros remaining after_. subst remaining after_.
  rewrite nextPage_eq, !remainingCount_eq. simpl.
  destruct (Z.ltb_spec 0
              (Z.max 0 (Z.of_nat (length (BookList.matches v))
                        - BookList.currentPage v * BookList.booksPerPage v)))
    as [Hpos|Hzero]; simpl.
  - split; [reflexivity|]. split; [intros H; contradiction|].
    split; [split; [discriminate | lia]|].
    intros _. repeat split; lia.
  - split; [intros H; lia|]. split; [reflexivity|].
    split; [split; [lia | reflexivity]|]. discriminate.
Qed.

(** C5. [getCurrentBookPage] returns
    [matches.slice((currentPage-1)*booksPerPage, currentPage*booksPerPage)]
    and leaves the view untouched.  On a well-formed view that is the
    clamped slice [matches[(currentPage-1)*booksPerPage :
    currentPage*booksPerPage]]: a full page when the bounds lie inside
    [matches], the shorter tail when the upper bound lies beyond its end,
    and the empty list when the lower bound does too. *)
Theorem getCurrentBookPage_is_clamped_slice (v : BookList.t) :
  let page := fst (BookList.getCurrentBookPage v) in
  let from := (BookList.currentPage v - 1) * BookList.booksPerPage v in
  let to := BookList.currentPage v * BookList.booksPerPage v in
  snd (BookList.getCurrentBookPage v) = v
  /\ page = slice (BookList.matches v) from to
  /\ sublist page (BookList.matches v)
  /\ (Spec.wellFormed v ->
      page = Spec.clampedSlice (BookList.matches v) (Z.to_nat from) (Z.to_nat to)
      /\ (to <= Z.of_nat (length (BookList.matches v)) ->
          Z.of_nat (length page) = BookList.booksPerPage v)
      /\ (Z.of_nat (length (BookList.matches v)) < to ->
          page = drop (Z.to_nat from) (BookList.matches v))
      /\ (Z.of_nat (length (BookList.matches v)) <= from -> page = [])).
Proof.
  intros page from to. subst page from to.
  rewrite getCurrentBookPage_eq. simpl.
  replace ((BookList.currentPage v - 1) * BookList.booksPerPage v
           + BookList.booksPerPage v)
    with (BookList.currentPage v * BookList.booksPerPage v) by lia.
  split; [reflexivity|]. split; [reflexivity|].
  split; [apply slice_sublist|].
  intros [Hpp Hcp]. rewrite slice_nonneg by nia.
  split; [reflexivity|]. unfold Spec.clampedSlice.
  split; [|split].
  - intros Hin. rewrite length_take, length_drop. nia.
  - intros Hout. apply take_ge. rewrite length_drop. nia.
  - intros Hout. rewrite drop_ge by lia. apply take_nil.
Qed.

(** C6. [remainingCount] is [max(0, matches.length -
    currentPage*booksPerPage)], never negative, and reads the view without
    changing it.  On a well-formed view it counts the entries of [matches]
    that lie after the pages 1, ..., [currentPage]: [matches] is those
    pages, one after the other, followed by exactly that many entries. *)
Theorem remainingCount_counts_unseen (v : BookList.t) :
  fst (BookList.remainingCount v)
  = Z.max 0 (Z.of_nat (length (BookList.matches v))
             - BookList.currentPage v * BookList.booksPerPage v)
  /\ 0 <= fst (BookList.remainingCount v)
  /\ snd (BookList.remainingCount v) = v
  /\ (Spec.wellFormed v ->
      exists unseen,
        BookList.matches v = concat (BookList.pagesUpToCurrent v) ++ unseen
        /\ fst (BookList.remainingCount v) = Z.of_nat (length unseen)).
Proof.
  rewrite remainingCount_eq. simpl.
  split; [reflexivity|]. split; [lia|]. split; [reflexivity|].
  intros [Hpp Hcp]. unfold BookList.pagesUpToCurrent.
  rewrite pages_concat by lia.
  exists (drop (Z.to_nat (BookList.currentPage v)
                * Z.to_nat (BookList.booksPerPage v)) (BookList.matches v)).
  split; [now rewrite take_drop|].
  rewrite length_drop. nia.
Qed.

Lemma showAll_from (fuel : nat) :
  forall (v : BookList.t) (i : nat),
    1 <= BookList.booksPerPage v ->
    BookList.currentPage v = Z.of_nat i + 1 ->
    (length (drop (i * Z.to_nat (BookList.booksPerPage v)) (BookList.matches v))
     < fuel)%nat ->
    exists pages last,
      BookList.showAll fuel v = Some (pages, BookList.withPage last v)
      /\ concat pages
         = drop (i * Z.to_nat (BookList.booksPerPage v)) (BookList.matches v)
      /\ fst (BookList.remainingCount (BookList.withPage last v)) = 0.
Proof.
  induction fuel as [|fuel IH]; intros v i Hpp Hcp Hfuel; [lia|].
  rewrite length_drop in Hfuel.
  pose proof (pageAt_succ i v ltac:(lia)) as Hpage.
  rewrite <- Hcp, <- getCurrentBookPage_pageAt in Hpage.
  cbn [BookList.showAll].
  rewrite getCurrentBookPage_eq in *. cbn [fst] in Hpage.
  rewrite nextPage_eq, remainingCount_eq. cbn [fst].
  destruct (Z.ltb_spec 0
              (Z.max 0 (Z.of_nat (length (BookList.matches v))
                        - BookList.currentPage v * BookList.booksPerPage v)))
    as [Hmore|Hdone].
  - destruct (IH (BookList.withPage (BookList.currentPage v + 1) v) (S i))
      as (pages & last & Hrun & Hcat & Hrem); cbn [BookList.withPage
        BookList.booksPerPage BookList.currentPage BookList.matches];
      [lia | lia | rewrite length_drop; nia |].
    rewrite Hrun. exists (fst (BookList.getCurrentBookPage v) :: pages), last.
    rewrite getCurrentBookPage_eq. cbn [fst].
    split; [reflexivity|]. split; [|exact Hrem].
    cbn [concat]. rewrite Hcat, Hpage.
    cbn [BookList.withPage BookList.booksPerPage BookList.matches].
    replace (S i * Z.to_nat (BookList.booksPerPage v))%nat
      with (i * Z.to_nat (BookList.booksPerPage v)
            + Z.to_nat (BookList.booksPerPage v))%nat by lia.
    rewrite <- drop_drop. apply take_drop.
  - exists [fst (BookList.getCurrentBookPage v)], (BookList.currentPage v).
    rewrite getCurrentBookPage_eq, withPage_same, remainingCount_eq. cbn [fst].
    split; [reflexivity|]. split; [|lia].
    cbn [concat]. rewrite app_nil_r, Hpage.
    apply take_ge. rewrite length_drop. nia.
Qed.

(** C3. With a page size of at least 1 and the cursor on page 1, taking
    the current page and then calling [nextPage], round after round until
    a round finds [remainingCount()] at 0 (its [nextPage] returns [false]),
    ends within [length matches + 1] rounds, and the pages taken,
    concatenated in order, are exactly [matches]: nothing is repeated and
    nothing is left out. *)
Theorem showAll_yields_matches (v : BookList.t) (fuel : nat) :
  1 <= BookList.booksPerPage v ->
  BookList.currentPage v = 1 ->
  (length (BookList.matches v) < fuel)%nat ->
  exists pages final,
    BookList.showAll fuel v = Some (pages, final)
    /\ concat pages = BookList.matches v
    /\ fst (BookList.remainingCount final) = 0
    /\ BookList.matches final = BookList.matches v.
Proof.
  intros Hpp Hcp Hfuel.
  destruct (showAll_from fuel v 0 Hpp) as (pages & last & Hrun & Hcat & Hrem).
  - rewrite Hcp. reflexivity.
  - rewrite Nat.mul_0_l, drop_0. exact Hfuel.
  - exists pages, (BookList.withPage last v).
    rewrite Nat.mul_0_l, drop_0 in Hcat. auto.
Qed.

(** ** Reachable states *)

Lemma afterAll_snoc (cs : list BookList.call) (c : BookList.call) (v : BookList.t) :
  BookList.afterAll (cs ++ [c]) v = BookList.after c (BookList.afterAll cs v).
Proof. unfold BookList.afterAll. now rewrite fold_left_app. Qed.

Lemma lastCriteria_snoc (cs : list BookList.call) (c : BookList.call) :
  BookList.lastCriteria (cs ++ [c])
  = match c with
    | BookList.Search filters => Some filters
    | _ => BookList.lastCriteria cs
    end.
Proof. unfold BookList.lastCriteria. now rewrite fold_left_app. Qed.

Lemma after_frame (c : BookList.call) (v : BookList.t) :
  BookList.books (BookList.after c v) = BookList.books v
  /\ BookList.booksPerPage (BookList.after c v) = BookList.booksPerPage v.
Proof.
  destruct c; simpl; auto.
  destruct (nextPage_frame v) as (? & ? & _). auto.
Qed.

Lemma afterAll_frame (cs : list BookList.call) (v : BookList.t) :
  BookList.books (BookList.afterAll cs v) = BookList.books v
  /\ BookList.booksPerPage (BookList.afterAll cs v) = BookList.booksPerPage v.
Proof.
  induction cs as [|c cs IH] using rev_ind; [auto|].
  rewrite afterAll_snoc.
  destruct (after_frame c (BookList.afterAll cs v)) as [-> ->]. exact IH.
Qed.

Lemma after_currentPage (c : BookList.call) (v : BookList.t) :
  1 <= BookList.currentPage v -> 1 <= BookList.currentPage (BookList.after c v).
Proof.
  intros H. destruct c; simpl; try lia.
  rewrite nextPage_eq. destruct (0 <? _); simpl; lia.
Qed.

Lemma afterAll_matches (cs : list BookList.call) (v : BookList.t) :
  BookList.matches v = BookList.books v ->
  BookList.matches (BookList.afterAll cs v)
  = Spec.selected (BookList.lastCriteria cs) (BookList.books v).
Proof.
  intros Hinit. induction cs as [|c cs IH] using rev_ind.
  { unfold Spec.selected. simpl.
    rewrite filter_all by (intros b _; apply matches_identityFilter).
    exact Hinit. }
  rewrite afterAll_snoc, lastCriteria_snoc.
  destruct c; simpl; try exact IH.
  - now destruct (afterAll_frame cs v) as [-> _].
  - destruct (nextPage_frame (BookList.afterAll cs v)) as (_ & _ & ->). exact IH.
Qed.

(** C7. Right after [createBookList(booksData, booksPerPage)], [matches]
    is a copy of the entries and [currentPage] is 1.  After any sequence
    of [search], [getCurrentBookPage], [remainingCount] and [nextPage]
    calls, [currentPage] is at least 1 and [matches] is a sublist of
    [books] (entries of [books] in their original order), namely the
    entries selected by the latest criteria, or all of them when no
    search was made. *)
Theorem view_invariants
    (booksData : list BookData.t) (booksPerPage : Z) (calls : list BookList.call) :
  let initial := BookList.createBookList booksData booksPerPage in
  let v := BookList.afterAll calls initial in
  (BookList.matches initial = map Book.createBook booksData
   /\ BookList.matches initial = BookList.books initial
   /\ BookList.currentPage initial = 1)
  /\ 1 <= BookList.currentPage v
  /\ sublist (BookList.matches v) (BookList.books v)
  /\ BookList.matches v
     = Spec.selected (BookList.lastCriteria calls) (BookList.books v).
Proof.
  intros initial v. subst v.
  split; [repeat split|].
  assert (Hm : BookList.matches (BookList.afterAll calls initial)
               = Spec.selected (BookList.lastCriteria calls) (BookList.books initial))
    by now apply afterAll_matches.
  destruct (afterAll_frame calls initial) as [Hb _]. rewrite Hb, Hm.
  split; [|split; [apply filter_sublist | reflexivity]].
  clear Hm Hb. induction calls as [|c calls IH] using rev_ind.
  - simpl. lia.
  - rewrite afterAll_snoc. now apply after_currentPage.
Qed.

(** C10. No call changes [books] or [booksPerPage]: [search] and
    [nextPage] assign only [matches] and [currentPage], and
    [getCurrentBookPage] and [remainingCount] assign nothing.  So after any
    sequence of calls both fields hold what [createBookList] put there. *)
Theorem books_and_page_size_never_change
    (booksData : list BookData.t) (booksPerPage : Z)
    (v : BookList.t) (filters : Filters.t) (calls : list BookList.call) :
  (BookList.books (snd (BookList.search filters v)) = BookList.books v
   /\ BookList.booksPerPage (snd (BookList.search filters v)) = BookList.booksPerPage v)
  /\ (BookList.books (snd (BookList.nextPage v)) = BookList.books v
      /\ BookList.booksPerPage (snd (BookList.nextPage v)) = BookList.booksPerPage v
      /\ BookList.matches (snd (BookList.nextPage v)) = BookList.matches v)
  /\ snd (BookList.getCurrentBookPage v) = v
  /\ snd (BookList.remainingCount v) = v
  /\ (BookList.books (BookList.afterAll calls v) = BookList.books v
      /\ BookList.booksPerPage (BookList.afterAll calls v) = BookList.booksPerPage v)
  /\ (BookList.books
        (BookList.afterAll calls (BookList.createBookList booksData booksPerPage))
      = map Book.createBook booksData
      /\ BookList.booksPerPage
           (BookList.afterAll calls (BookList.createBookList booksData booksPerPage))
         = booksPerPage).
Proof.
  split; [split; reflexivity|].
  split; [apply nextPage_frame|].
  split; [reflexivity|]. split; [reflexivity|].
  split; [apply afterAll_frame|].
  destruct (afterAll_frame calls (BookList.createBookList booksData booksPerPage))
    as [-> ->].
  split; reflexivity.
Qed.

(** ** Absence of exceptions *)

Section DynFacts.

Lemma dyn_genreLoop (genreMatch : bool) (genres : list JsString.t) (genre : JsString.t) :
  Dyn.genreLoop genreMatch (map Dyn.Str genres) genre
  = Book.genreLoop genreMatch genres genre.
Proof.
  revert genreMatch. induction genres as [|g genres IH]; intros genreMatch; simpl.
  - reflexivity.
  - destruct genreMatch; [reflexivity|]. apply IH.
Qed.

(** On a well-formed entry the untyped [matches] completes normally,
    with the value of the typed one. *)
Lemma dyn_matches (b : Book.t) (f : Filters.t) :
  Dyn.matches (Dyn.ofBook b) f = Dyn.Normal (Book.matches b f).
Proof.
  unfold Dyn.matches, Book.matches. simpl.
  rewrite dyn_genreLoop.
  now destruct (negb (JsString.truthy (JsString.trim (Filters.title f)))).
Qed.

Lemma dyn_filter (f : Filters.t) (l : list Book.t) :
  Dyn.filter (fun b => Dyn.matches b f) (map Dyn.ofBook l)
  = Dyn.Normal (map Dyn.ofBook (List.filter (fun b => Book.matches b f) l)).
Proof.
  induction l as [|b l IH]; simpl; [reflexivity|].
  rewrite dyn_matches, IH. simpl. now destruct (Book.matches b f).
Qed.

Lemma dyn_search (f : Filters.t) (v : BookList.t) :
  Dyn.search f (Dyn.ofView v)
  = (Dyn.Normal (map Dyn.ofBook (fst (BookList.search f v))),
     Dyn.ofView (snd (BookList.search f v))).
Proof.
  unfold Dyn.search. simpl Dyn.books. rewrite dyn_filter, search_eq.
  reflexivity.
Qed.

End DynFacts.


(** C9. On entries that are well formed (string fields, a sequence of
    genre ids) and for every criteria triple of strings, [matches] and
    [search] complete normally.  A search that selects nothing returns the
    empty list; so does an [author] that is neither ["any"] nor the author
    of an entry, and a [genre] that is neither ["any"] nor a genre of an
    entry.  Paging beyond the end does not raise either: [nextPage] with
    nothing remaining returns [false] and changes nothing, and
    [getCurrentBookPage] with the cursor past the last entry returns the
    empty page.  [getCurrentBookPage], [remainingCount] and [nextPage]
    only do arithmetic, comparisons and [slice], none of which raises. *)
Theorem core_operations_never_throw (v : BookList.t) (f : Filters.t) :
  (forall b, Dyn.matches (Dyn.ofBook b) f = Dyn.Normal (Book.matches b f))
  /\ Dyn.search f (Dyn.ofView v)
     = (Dyn.Normal (map Dyn.ofBook (fst (BookList.search f v))),
        Dyn.ofView (snd (BookList.search f v)))
  /\ ((forall b, In b (BookList.books v) -> Book.matches b f = false) ->
      fst (Dyn.search f (Dyn.ofView v)) = Dyn.Normal [])
  /\ (Filters.author f <> JsString.lit "any" ->
      (forall b, In b (BookList.books v) -> Book.author b <> Filters.author f) ->
      fst (Dyn.search f (Dyn.ofView v)) = Dyn.Normal [])
  /\ (Filters.genre f <> JsString.lit "any" ->
      (forall b, In b (BookList.books v) -> ~ In (Filters.genre f) (Book.genres b)) ->
      fst (Dyn.search f (Dyn.ofView v)) = Dyn.Normal [])
  /\ (fst (BookList.remainingCount v) = 0 -> BookList.nextPage v = (false, v))
  /\ (0 <= BookList.booksPerPage v ->
      Z.of_nat (length (BookList.matches v))
      <= (BookList.currentPage v - 1) * BookList.booksPerPage v ->
      BookList.getCurrentBookPage v = ([], v)).
Proof.
  assert (Hnone : (forall b, In b (BookList.books v) -> Book.matches b f = false) ->
                  fst (Dyn.search f (Dyn.ofView v)) = Dyn.Normal []).
  { intros H. rewrite dyn_search, search_eq. simpl.
    now rewrite filter_none. }
  split; [intros b; apply dyn_matches|].
  split; [apply dyn_search|].
  split; [exact Hnone|].
  split; [|split; [|split]].
  - intros Hany Hno. apply Hnone. intros b Hb.
    apply not_true_is_false. rewrite matches_iff. unfold Spec.authorTest.
    specialize (Hno b Hb). tauto.
  - intros Hany Hno. apply Hnone. intros b Hb.
    apply not_true_is_false. rewrite matches_iff. unfold Spec.genreTest.
    specialize (Hno b Hb). tauto.
  - intros Hrem. rewrite nextPage_eq, Hrem. reflexivity.
  - intros Hpp Hpast. rewrite getCurrentBookPage_eq. f_equal.
    unfold slice.
    destruct (Z.ltb_spec ((BookList.currentPage v - 1) * BookList.booksPerPage v) 0);
      [lia|].
    destruct (Z.ltb_spec ((BookList.currentPage v - 1) * BookList.booksPerPage v
                          + BookList.booksPerPage v) 0); [lia|].
    rewrite !Z.min_r by lia. rewrite Z.sub_diag. apply take_0.
Qed.

(** * Further properties of the code *)

(** ** More on [search] *)

(** X3. Relaxing criteria never loses an entry: when each field of
    [wide] is either the same as in [narrow] or the wildcard (a blank
    title, ["any"]), every entry that [narrow] selects is selected by
    [wide], and the narrow result is a sublist of the wide one. *)
Theorem search_relaxed_criteria (v : BookList.t) (narrow wide : Filters.t) :
  (Spec.blank (Filters.title wide) \/ Filters.title wide = Filters.title narrow) ->
  (Filters.author wide = JsString.lit "any" \/ Filters.author wide = Filters.author narrow) ->
  (Filters.genre wide = JsString.lit "any" \/ Filters.genre wide = Filters.genre narrow) ->
  sublist (fst (BookList.search narrow v)) (fst (BookList.search wide v)).
Proof.
  intros Ht Ha Hg. rewrite !search_eq. simpl.
  induction (BookList.books v) as [|b l IH]; simpl; [constructor|].
  destruct (Book.matches b narrow) eqn:Hn.
  - assert (Hw : Book.matches b wide = true).
    { apply matches_iff in Hn. apply matches_iff.
      unfold Spec.titleTest, Spec.authorTest, Spec.genreTest in *.
      destruct Hn as (Hn1 & Hn2 & Hn3). repeat split.
      - destruct Ht as [Ht|Ht]; [now left | now rewrite Ht].
      - destruct Ha as [Ha|Ha]; [now left | now rewrite Ha].
      - destruct Hg as [Hg|Hg]; [now left | now rewrite Hg]. }
    rewrite Hw. now constructor.
  - destruct (Book.matches b wide); [now constructor | exact IH].
Qed.

(** ** More on the view *)

(** X4. A search starts from the full entry list: whatever calls came
    before (earlier searches included), [search filters] returns the same
    list and leaves the same view as on the untouched one.  Searches do
    not refine one another. *)
Theorem search_forgets_history
    (calls : list BookList.call) (v : BookList.t) (filters : Filters.t) :
  BookList.search filters (BookList.afterAll calls v) = BookList.search filters v.
Proof.
  rewrite !search_eq.
  destruct (afterAll_frame calls v) as [-> ->]. reflexivity.
Qed.

(** X5. Paging saturates: once [nextPage] has returned [false], any
    number of further [nextPage] calls leaves the view as it is, and each
    of them returns [false]. *)
Theorem nextPage_saturates (v : BookList.t) (n : nat) :
  fst (BookList.nextPage v) = false ->
  BookList.advance n v = v
  /\ BookList.nextPage (BookList.advance n v) = (false, v).
Proof.
  intros Hstop.
  assert (Hsame : BookList.nextPage v = (false, v)).
  { rewrite nextPage_eq in *. destruct (0 <? _); [discriminate | reflexivity]. }
  assert (Hadv : BookList.advance n v = v).
  { induction n as [|n IH]; simpl; [reflexivity|]. now rewrite Hsame. }
  now rewrite Hadv.
Qed.

Lemma advance_currentPage (n : nat) :
  forall v : BookList.t,
    1 <= BookList.booksPerPage v ->
    1 <= BookList.currentPage v ->
    BookList.currentPage v
    <= Z.max 1 ((Z.of_nat (length (BookList.matches v)) + BookList.booksPerPage v - 1)
                / BookList.booksPerPage v) ->
    BookList.currentPage (BookList.advance n v)
    = Z.min (BookList.currentPage v + Z.of_nat n)
            (Z.max 1 ((Z.of_nat (length (BookList.matches v))
                       + BookList.booksPerPage v - 1)
                      / BookList.booksPerPage v)).
Proof.
  induction n as [|n IH]; intros v Hpp Hcp Hle.
  - simpl. lia.
  - cbn [BookList.advance]. rewrite nextPage_eq, remainingCount_eq. cbn [fst].
    set (len := Z.of_nat (length (BookList.matches v))) in *.
    set (pp := BookList.booksPerPage v) in *.
    set (cp := BookList.currentPage v) in *.
    destruct (Z.ltb_spec 0 (Z.max 0 (len - cp * pp))) as [Hmore|Hdone]; cbn [snd].
    + assert (Hlt : cp + 1 <= (len + pp - 1) / pp)
        by (apply Z.div_le_lower_bound; lia).
      rewrite IH; cbn [BookList.withPage BookList.booksPerPage BookList.currentPage
                       BookList.matches]; fold len pp cp; lia.
    + assert (Hge : (len + pp - 1) / pp < cp + 1)
        by (apply Z.div_lt_upper_bound; lia).
      rewrite IH; fold len pp cp; lia.
Qed.

(** X6. The number of pages.  With a page size of at least 1 and the
    cursor on page 1, [n] calls of [nextPage] put the cursor on page
    [n + 1], but never beyond the last page, which is page
    [ceil(matches.length / booksPerPage)], or page 1 when nothing
    matches. *)
Theorem advance_reaches_page (v : BookList.t) (n : nat) :
  1 <= BookList.booksPerPage v ->
  BookList.currentPage v = 1 ->
  BookList.currentPage (BookList.advance n v)
  = Z.min (Z.of_nat n + 1)
          (Z.max 1 ((Z.of_nat (length (BookList.matches v))
                     + BookList.booksPerPage v - 1)
                    / BookList.booksPerPage v)).
Proof.
  intros Hpp Hcp. rewrite advance_currentPage by lia. rewrite Hcp. f_equal. lia.
Qed.

Lemma after_page_bound (c : BookList.call) (v : BookList.t) :
  1 <= BookList.currentPage v ->
  (BookList.currentPage v = 1
   \/ (BookList.currentPage v - 1) * BookList.booksPerPage v
      < Z.of_nat (length (BookList.matches v))) ->
  BookList.currentPage (BookList.after c v) = 1
  \/ (BookList.currentPage (BookList.after c v) - 1)
     * BookList.booksPerPage (BookList.after c v)
     < Z.of_nat (length (BookList.matches (BookList.after c v))).
Proof.
  intros Hcp Hb. destruct c; simpl; auto.
  rewrite nextPage_eq, remainingCount_eq. cbn [fst].
  destruct (Z.ltb_spec 0 (Z.max 0 (Z.of_nat (length (BookList.matches v))
                                   - BookList.currentPage v * BookList.booksPerPage v)));
    simpl; [right; lia | exact Hb].
Qed.

(** X7. The cursor never runs past the matches.  In every state reached
    from [createBookList] with a page size of at least 1, the current page
    is page 1 or starts inside [matches]; so [getCurrentBookPage] returns
    an empty page only when nothing matches. *)
Theorem current_page_not_empty
    (booksData : list BookData.t) (booksPerPage : Z) (calls : list BookList.call) :
  1 <= booksPerPage ->
  let v := BookList.afterAll calls (BookList.createBookList booksData booksPerPage) in
  (BookList.currentPage v = 1
   \/ (BookList.currentPage v - 1) * booksPerPage
      < Z.of_nat (length (BookList.matches v)))
  /\ (BookList.matches v <> [] -> fst (BookList.getCurrentBookPage v) <> []).
Proof.
  intros Hpp v.
  assert (Hinv : 1 <= BookList.currentPage v
                 /\ BookList.booksPerPage v = booksPerPage
                 /\ (BookList.currentPage v = 1
                     \/ (BookList.currentPage v - 1) * BookList.booksPerPage v
                        < Z.of_nat (length (BookList.matches v)))).
  { subst v. induction calls as [|c calls IH] using rev_ind.
    - simpl. repeat split; [lia | now left].
    - rewrite afterAll_snoc. destruct IH as (Hcp & Hsame & Hb).
      split; [now apply after_currentPage|].
      split; [now destruct (after_frame c (BookList.afterAll calls
                (BookList.createBookList booksData booksPerPage))) as [_ ->]|].
      now apply after_page_bound. }
  destruct Hinv as (Hcp & Hsame & Hb). rewrite Hsame in Hb.
  split; [exact Hb|].
  intros Hne Hpage.
  rewrite getCurrentBookPage_pageAt in Hpage.
  replace (BookList.currentPage v)
    with (Z.of_nat (Z.to_nat (BookList.currentPage v - 1)) + 1) in Hpage by lia.
  rewrite pageAt_succ in Hpage by lia.
  apply (f_equal (@length Book.t)) in Hpage.
  rewrite length_take, length_drop, Hsame in Hpage. simpl in Hpage.
  destruct (BookList.matches v) as [|x l]; [congruence|]. simpl in *.
  destruct Hb as [Hb|Hb]; [rewrite Hb in *; simpl in *; lia | nia].
Qed.

(** ** When the untyped methods raise *)

Lemma dyn_filter_throws (callback : Dyn.book -> Dyn.completion bool)
    (arr : list Dyn.book) :
  (exists e, Dyn.filter callback arr = Dyn.Throw e)
  <-> exists b, In b arr /\ exists e, callback b = Dyn.Throw e.
Proof.
  induction arr as [|x arr IH]; simpl.
  - split; [intros [e H]; discriminate | intros (b & [] & _)].
  - destruct (callback x) as [keep|e] eqn:Hx; simpl.
    + destruct (Dyn.filter callback arr) as [kept|e] eqn:Hrest; simpl.
      * split; [intros [e H]; discriminate|].
        intros (b & [<-|Hb] & e & He); [congruence|].
        destruct IH as [_ IH]. destruct IH as [e' He']; [eauto | discriminate].
      * split; [|eauto]. intros _.
        destruct IH as [IH _]. destruct IH as (b & Hb & Hthrow); eauto.
    + split; [|eauto]. intros _. exists x. eauto.
Qed.

Lemma dyn_filter_sublist (callback : Dyn.book -> Dyn.completion bool)
    (arr kept : list Dyn.book) :
  Dyn.filter callback arr = Dyn.Normal kept -> sublist kept arr.
Proof.
  revert kept. induction arr as [|x arr IH]; intros kept; simpl.
  - intros [= <-]. constructor.
  - destruct (callback x) as [keep|e]; simpl; [|discriminate].
    destruct (Dyn.filter callback arr) as [kept'|e]; simpl; [|discriminate].
    intros [= <-]. destruct keep; constructor; now apply IH.
Qed.

(** X8. When [matches] raises.  On an entry whose fields hold values that
    a data file can hold ([undefined], [null], a boolean, a number, a
    string, an array, a plain object), [matches] raises a [TypeError] in
    exactly two situations: the criteria title is not blank and the
    entry's [title] is not a string, or the entry's [genres] is neither an
    array nor a string.  A blank criteria title never touches
    [this.title]; [this.genres] is iterated even when the genre wanted is
    ["any"]. *)
Theorem dyn_matches_throws_iff (b : Dyn.book) (f : Filters.t) :
  Dyn.matches b f = Dyn.Throw Dyn.TypeError
  <-> (~ Spec.blank (Filters.title f) /\ (forall s, Dyn.title b <> Dyn.Str s))
      \/ ((forall elems, Dyn.genres b <> Dyn.Array elems)
          /\ (forall s, Dyn.genres b <> Dyn.Str s)).
Proof.
  unfold Dyn.matches. rewrite <- trim_falsy.
  destruct (JsString.truthy (JsString.trim (Filters.title f))); simpl;
    destruct (Dyn.title b); simpl; destruct (Dyn.genres b); simpl;
    (split;
     [ first [ discriminate
             | intros _;
               first [ right; split; intros ?; discriminate
                     | left; split; [intros ?; discriminate | intros ?; discriminate] ] ]
     | first [ reflexivity
             | intros [[H1 H2]|[H1 H2]];
               first [ now contradiction H1
                     | now contradiction (H2 _ eq_refl)
                     | now contradiction (H1 _ eq_refl) ] ] ]).
Qed.

(** X9. A search that raises changes nothing.  [search] raises exactly
    when [matches] raises on some entry of [books]; the view then keeps
    its old [matches] and [currentPage].  Otherwise the result is a
    sublist of [books], stored in [matches], and [currentPage] is 1. *)
Theorem dyn_search_throws_iff (v : Dyn.view) (f : Filters.t) :
  (fst (Dyn.search f v) = Dyn.Throw Dyn.TypeError
   <-> exists b, In b (Dyn.books v) /\ Dyn.matches b f = Dyn.Throw Dyn.TypeError)
  /\ (fst (Dyn.search f v) = Dyn.Throw Dyn.TypeError -> snd (Dyn.search f v) = v)
  /\ (forall kept,
        fst (Dyn.search f v) = Dyn.Normal kept ->
        sublist kept (Dyn.books v)
        /\ Dyn.found (snd (Dyn.search f v)) = kept
        /\ Dyn.currentPage (snd (Dyn.search f v)) = 1
        /\ Dyn.books (snd (Dyn.search f v)) = Dyn.books v
        /\ Dyn.booksPerPage (snd (Dyn.search f v)) = Dyn.booksPerPage v).
Proof.
  pose proof (dyn_filter_throws (fun b => Dyn.matches b f) (Dyn.books v)) as Hthrow.
  pose proof (dyn_filter_sublist (fun b => Dyn.matches b f) (Dyn.books v)) as Hsub.
  unfold Dyn.search.
  destruct (Dyn.filter (fun b => Dyn.matches b f) (Dyn.books v)) as [kept|[]]; simpl.
  - split; [|split].
    + split; [discriminate|]. intros (b & Hb & He).
      destruct Hthrow as [_ Hthrow]. destruct Hthrow as [e He']; [eauto | discriminate].
    + discriminate.
    + intros kept' [= <-]. repeat split. now apply Hsub.
  - split; [|split].
    + split; [|reflexivity]. intros _.
      destruct Hthrow as [Hthrow _]. destruct Hthrow as (b & Hb & [[] He]); eauto.
    + reflexivity.
    + discriminate.
Qed.

(** ** The user interface *)

Section UIFacts.

Variables authors genres : Data.table.
Variable getFullYear : Book.Date -> JsString.t.

Implicit Types (ui : BookUI.t) (e : BookUI.event).

Lemma renderBooks_eq ui :
  BookUI.renderBooks authors ui
  = {| BookUI.bookList := BookUI.bookList ui;
       BookUI.dom :=
         Dom.withList
           {| Dom.items :=
                (if BookList.currentPage (BookUI.bookList ui) =? 1
                 then [] else Dom.items (Dom.list_ (BookUI.dom ui)))
                ++ map (BookUI.previewElement authors)
                       (fst (BookList.getCurrentBookPage (BookUI.bookList ui)));
              Dom.buttonDisabled := Dom.buttonDisabled (Dom.list_ (BookUI.dom ui));
              Dom.buttonRemaining := Dom.buttonRemaining (Dom.list_ (BookUI.dom ui));
              Dom.messageShow := Dom.messageShow (Dom.list_ (BookUI.dom ui)) |}
           (BookUI.dom ui) |}.
Proof. reflexivity. Qed.

Lemma updateShowMoreButton_eq ui :
  BookUI.updateShowMoreButton ui
  = {| BookUI.bookList := BookUI.bookList ui;
       BookUI.dom :=
         Dom.withList
           {| Dom.items := Dom.items (Dom.list_ (BookUI.dom ui));
              Dom.buttonDisabled := fst (BookList.remainingCount (BookUI.bookList ui)) <=? 0;
              Dom.buttonRemaining := fst (BookList.remainingCount (BookUI.bookList ui));
              Dom.messageShow := Dom.messageShow (Dom.list_ (BookUI.dom ui)) |}
           (BookUI.dom ui) |}.
Proof. reflexivity. Qed.

(** Rendering page 1 replaces the container by the first page. *)
Lemma first_page_shown (v : BookList.t) :
  1 <= BookList.booksPerPage v ->
  BookList.currentPage v = 1 ->
  fst (BookList.getCurrentBookPage v)
  = take (Z.to_nat (BookList.currentPage v * BookList.booksPerPage v))
         (BookList.matches v).
Proof.
  intros Hpp Hcp. rewrite getCurrentBookPage_pageAt, Hcp.
  change 1 with (Z.of_nat 0 + 1) at 1. rewrite pageAt_succ by lia.
  rewrite Nat.mul_0_l, drop_0. f_equal. lia.
Qed.

Lemma handleSearch_consistent (f : Filters.t) ui :
  1 <= BookList.booksPerPage (BookUI.bookList ui) ->
  UISpec.listConsistent authors (BookUI.handleSearch authors f ui).
Proof.
  intros Hpp. unfold BookUI.handleSearch. rewrite search_eq.
  rewrite renderBooks_eq, updateShowMoreButton_eq.
  unfold UISpec.listConsistent. cbn -[BookList.remainingCount BookList.getCurrentBookPage Z.mul].
  repeat split.
  rewrite first_page_shown by (simpl; lia). reflexivity.
Qed.

Lemma loadMoreBooks_consistent ui :
  1 <= BookList.booksPerPage (BookUI.bookList ui) ->
  1 <= BookList.currentPage (BookUI.bookList ui) ->
  UISpec.listConsistent authors ui ->
  UISpec.listConsistent authors (BookUI.loadMoreBooks authors ui).
Proof.
  intros Hpp Hcp (Hitems & Hrem & Hdis). unfold BookUI.loadMoreBooks.
  rewrite nextPage_eq.
  destruct (0 <? fst (BookList.remainingCount (BookUI.bookList ui))).
  - rewrite renderBooks_eq, updateShowMoreButton_eq.
    unfold UISpec.listConsistent.
    cbn -[BookList.remainingCount BookList.getCurrentBookPage Z.mul].
    repeat split.
    destruct (Z.eqb_spec (BookList.currentPage (BookUI.bookList ui) + 1) 1); [lia|].
    rewrite Hitems, <- map_app. f_equal.
    rewrite getCurrentBookPage_pageAt.
    cbn [BookList.withPage BookList.currentPage].
    replace (BookList.currentPage (BookUI.bookList ui) + 1)
      with (Z.of_nat (Z.to_nat (BookList.currentPage (BookUI.bookList ui))) + 1)
      at 1 by lia.
    rewrite pageAt_succ by (simpl; lia).
    cbn [BookList.withPage BookList.booksPerPage BookList.matches].
    rewrite <- Z2Nat.inj_mul by lia.
    rewrite take_take_drop. f_equal. nia.
  - destruct ui. repeat split; assumption.
Qed.

(** The events that are neither a search nor "Show more" leave the view
    and the list area alone. *)
Lemma handle_other_frame e ui :
  match e with
  | BookUI.SearchSubmit _ | BookUI.ListButtonClick => True
  | _ =>
      BookUI.bookList (BookUI.handle authors getFullYear e ui) = BookUI.bookList ui
      /\ Dom.list_ (BookUI.dom (BookUI.handle authors getFullYear e ui))
         = Dom.list_ (BookUI.dom ui)
  end.
Proof.
  destruct e; try exact I; try (split; reflexivity).
  simpl. unfold BookUI.handleBookClick.
  destruct (BookUI.findActive _ _ _); split; reflexivity.
Qed.

Lemma handle_bookList_frame e ui :
  BookList.books (BookUI.bookList (BookUI.handle authors getFullYear e ui))
  = BookList.books (BookUI.bookList ui)
  /\ BookList.booksPerPage (BookUI.bookList (BookUI.handle authors getFullYear e ui))
     = BookList.booksPerPage (BookUI.bookList ui).
Proof.
  pose proof (handle_other_frame e ui) as H.
  destruct e;
    try (match type of H with _ /\ _ => destruct H as [-> _]; split; reflexivity end).
  - split; reflexivity.
  - simpl. unfold BookUI.loadMoreBooks. rewrite nextPage_eq.
    destruct (0 <? _); split; reflexivity.
Qed.

Lemma handle_currentPage e ui :
  1 <= BookList.currentPage (BookUI.bookList ui) ->
  1 <= BookList.currentPage (BookUI.bookList (BookUI.handle authors getFullYear e ui)).
Proof.
  intros Hcp. pose proof (handle_other_frame e ui) as H.
  destruct e;
    try (match type of H with _ /\ _ => destruct H as [-> _]; exact Hcp end).
  - simpl. lia.
  - simpl. unfold BookUI.loadMoreBooks. rewrite nextPage_eq.
    destruct (0 <? _); simpl; lia.
Qed.

Lemma handle_consistent e ui :
  1 <= BookList.booksPerPage (BookUI.bookList ui) ->
  1 <= BookList.currentPage (BookUI.bookList ui) ->
  UISpec.listConsistent authors ui ->
  UISpec.listConsistent authors (BookUI.handle authors getFullYear e ui).
Proof.
  intros Hpp Hcp Hc. pose proof (handle_other_frame e ui) as H.
  destruct e;
    try (match type of H with
         | _ /\ _ => destruct H as [Hb Hl]; unfold UISpec.listConsistent in *;
                     rewrite Hb, Hl; exact Hc
         end).
  - now apply handleSearch_consistent.
  - now apply loadMoreBooks_consistent.
Qed.

Lemma handleAll_snoc (es : list BookUI.event) e ui :
  BookUI.handleAll authors getFullYear (es ++ [e]) ui
  = BookUI.handle authors getFullYear e (BookUI.handleAll authors getFullYear es ui).
Proof. unfold BookUI.handleAll. now rewrite fold_left_app. Qed.

Lemma createBookUI_consistent (isDark : bool) (v : BookList.t) (document : Dom.t) :
  1 <= BookList.booksPerPage v ->
  BookList.currentPage v = 1 ->
  BookUI.bookList (BookUI.createBookUI authors genres isDark v document) = v
  /\ UISpec.listConsistent authors (BookUI.createBookUI authors genres isDark v document).
Proof.
  intros Hpp Hcp. unfold BookUI.createBookUI, BookUI.initializeUI.
  rewrite updateShowMoreButton_eq, renderBooks_eq.
  unfold UISpec.listConsistent.
  cbn -[BookList.remainingCount BookList.getCurrentBookPage Z.mul].
  split; [reflexivity|]. repeat split.
  rewrite Hcp at 1. cbn [Z.eqb Pos.eqb app].
  now rewrite first_page_shown.
Qed.

Lemma reachable_consistent (isDark : bool) (v : BookList.t) (document : Dom.t)
    (es : list BookUI.event) :
  1 <= BookList.booksPerPage v ->
  BookList.currentPage v = 1 ->
  let ui := BookUI.handleAll authors getFullYear es
              (BookUI.createBookUI authors genres isDark v document) in
  1 <= BookList.booksPerPage (BookUI.bookList ui)
  /\ 1 <= BookList.currentPage (BookUI.bookList ui)
  /\ UISpec.listConsistent authors ui.
Proof.
  intros Hpp Hcp. induction es as [|e es IH] using rev_ind.
  - destruct (createBookUI_consistent isDark v document Hpp Hcp) as [Hb Hc].
    cbn [BookUI.handleAll fold_left]. rewrite Hb.
    split; [lia | split; [lia | exact Hc]].
  - cbv zeta in *. rewrite handleAll_snoc. destruct IH as (Hpp' & Hcp' & Hc').
    split; [|split].
    + now destruct (handle_bookList_frame e
                      (BookUI.handleAll authors getFullYear es
                         (BookUI.createBookUI authors genres isDark v document)))
        as [_ ->].
    + now apply handle_currentPage.
    + now apply handle_consistent.
Qed.

End UIFacts.

(** X10. The list shows the pages taken so far.  After [createBookUI] on
    a fresh view with a page size of at least 1, and after any sequence
    of events, the list container holds the previews of the first
    [currentPage * booksPerPage] matches, in order; the "Show more" button
    carries [remainingCount()] and is disabled exactly when that is 0; the
    entries shown and the entries remaining add up to the matches; and a
    disabled button means that every match is shown. *)
Theorem list_area_consistent
    (authors genres : Data.table) (getFullYear : Book.Date -> JsString.t)
    (isDark : bool) (booksData : list BookData.t) (booksPerPage : Z)
    (document : Dom.t) (events : list BookUI.event) :
  1 <= booksPerPage ->
  let ui := BookUI.handleAll authors getFullYear events
              (BookUI.createBookUI authors genres isDark
                 (BookList.createBookList booksData booksPerPage) document) in
  let v := BookUI.bookList ui in
  let l := Dom.list_ (BookUI.dom ui) in
  Dom.items l
  = map (BookUI.previewElement authors)
        (take (Z.to_nat (BookList.currentPage v * booksPerPage)) (BookList.matches v))
  /\ Dom.buttonRemaining l = fst (BookList.remainingCount v)
  /\ (Dom.buttonDisabled l = true <-> Dom.buttonRemaining l = 0)
  /\ Z.of_nat (length (Dom.items l)) + Dom.buttonRemaining l
     = Z.of_nat (length (BookList.matches v))
  /\ (Dom.buttonDisabled l = true ->
      Dom.items l = map (BookUI.previewElement authors) (BookList.matches v)).
Proof.
  intros Hpp ui v l.
  destruct (reachable_consistent authors genres getFullYear isDark
              (BookList.createBookList booksData booksPerPage) document events)
    as (Hpp' & Hcp & Hitems & Hrem & Hdis); [exact Hpp | reflexivity |].
  fold ui in Hpp', Hcp, Hitems, Hrem, Hdis. fold v in Hpp', Hcp, Hitems, Hrem, Hdis.
  fold l in Hitems, Hrem, Hdis.
  assert (Hsame : BookList.booksPerPage v = booksPerPage).
  { subst v ui. clear. induction events as [|e es IH] using rev_ind; [reflexivity|].
    rewrite handleAll_snoc.
    now destruct (handle_bookList_frame authors getFullYear e
                    (BookUI.handleAll authors getFullYear es
                       (BookUI.createBookUI authors genres isDark
                          (BookList.createBookList booksData booksPerPage) document)))
      as [_ ->]. }
  rewrite Hsame in *. rewrite remainingCount_eq in Hrem, Hdis. cbn [fst] in Hrem, Hdis.
  rewrite Hsame in Hrem, Hdis.
  split; [exact Hitems|]. split; [now rewrite remainingCount_eq, Hsame|].
  split; [rewrite Hdis, Hrem, Z.leb_le; lia|].
  split.
  - rewrite Hitems, Hrem, length_map, length_take. nia.
  - intros Hd. rewrite Hitems. f_equal. apply take_ge.
    rewrite Hdis, Z.leb_le in Hd. nia.
Qed.

(** X11. "Show more" on a disabled button does nothing.  In a state
    reached as in X10, when the button is disabled the listener of
    "Show more" leaves the view and the document exactly as they are. *)
Theorem show_more_disabled_is_noop
    (authors genres : Data.table) (getFullYear : Book.Date -> JsString.t)
    (isDark : bool) (booksData : list BookData.t) (booksPerPage : Z)
    (document : Dom.t) (events : list BookUI.event) :
  1 <= booksPerPage ->
  let ui := BookUI.handleAll authors getFullYear events
              (BookUI.createBookUI authors genres isDark
                 (BookList.createBookList booksData booksPerPage) document) in
  Dom.buttonDisabled (Dom.list_ (BookUI.dom ui)) = true ->
  BookUI.handle authors getFullYear BookUI.ListButtonClick ui = ui.
Proof.
  intros Hpp ui Hd.
  destruct (reachable_consistent authors genres getFullYear isDark
              (BookList.createBookList booksData booksPerPage) document events)
    as (_ & _ & _ & _ & Hdis); [exact Hpp | reflexivity |].
  fold ui in Hdis. rewrite Hdis in Hd. apply Z.leb_le in Hd.
  cbn [BookUI.handle]. unfold BookUI.loadMoreBooks. rewrite nextPage_eq.
  destruct (Z.ltb_spec 0 (fst (BookList.remainingCount (BookUI.bookList ui))));
    [lia|]. now destruct ui.
Qed.

Lemma handleSearch_message (authors : Data.table) (filters : Filters.t) (ui : BookUI.t) :
  Dom.messageShow (Dom.list_ (BookUI.dom (BookUI.handleSearch authors filters ui))) = true
  <-> BookList.matches (BookUI.bookList (BookUI.handleSearch authors filters ui)) = [].
Proof.
  unfold BookUI.handleSearch. rewrite search_eq.
  cbn -[List.filter]. rewrite Z.ltb_lt.
  destruct (List.filter _ _); simpl; split; intros; try lia; congruence.
Qed.

Lemma handle_message_preserved
    (authors : Data.table) (getFullYear : Book.Date -> JsString.t)
    (e : BookUI.event) (ui : BookUI.t) :
  (Dom.messageShow (Dom.list_ (BookUI.dom ui)) = true
   <-> BookList.matches (BookUI.bookList ui) = []) ->
  Dom.messageShow (Dom.list_ (BookUI.dom (BookUI.handle authors getFullYear e ui))) = true
  <-> BookList.matches (BookUI.bookList (BookUI.handle authors getFullYear e ui)) = [].
Proof.
  intros Hinv. pose proof (handle_other_frame authors getFullYear e ui) as H.
  destruct e;
    try (match type of H with _ /\ _ => destruct H as [-> ->]; exact Hinv end).
  - apply handleSearch_message.
  - cbn [BookUI.handle]. unfold BookUI.loadMoreBooks. rewrite nextPage_eq.
    destruct (0 <? _); exact Hinv.
Qed.

(** X12. The "no results" message.  From a search on, whatever events
    follow, the message carries the class [list__message_show] exactly
    when the view has no matches. *)
Theorem no_results_message_iff_no_matches
    (authors : Data.table) (getFullYear : Book.Date -> JsString.t)
    (ui : BookUI.t) (filters : Filters.t) (events : list BookUI.event) :
  let ui' := BookUI.handleAll authors getFullYear events
               (BookUI.handleSearch authors filters ui) in
  Dom.messageShow (Dom.list_ (BookUI.dom ui')) = true
  <-> BookList.matches (BookUI.bookList ui') = [].
Proof.
  induction events as [|e es IH] using rev_ind.
  - apply handleSearch_message.
  - cbv zeta in *. rewrite handleAll_snoc. now apply handle_message_preserved.
Qed.

(** ** Clicks on the list *)

Lemma findActive_found (books : list Book.t) (b : Book.t) (path : list (option JsString.t)) :
  BookUI.findActive books (Some b) path = Some b.
Proof. destruct path; reflexivity. Qed.

Lemma findActive_skip (books : list Book.t) (inner rest : list (option JsString.t)) :
  Forall (fun node => node = None) inner ->
  BookUI.findActive books None (inner ++ rest) = BookUI.findActive books None rest.
Proof.
  induction 1 as [|node inner -> _ IH]; [reflexivity|]. exact IH.
Qed.

Lemma find_by_id (books : list Book.t) (b : Book.t) :
  In b books ->
  NoDup (map Book.id books) ->
  List.find (fun book => JsString.strictEq (Book.id book) (Book.id b)) books = Some b.
Proof.
  induction books as [|x books IH]; intros Hin Hnd; [contradiction|].
  simpl in *. apply NoDup_cons in Hnd. destruct Hnd as [Hx Hnd].
  destruct (JsString.strictEq (Book.id x) (Book.id b)) eqn:E.
  - apply strictEq_iff in E. destruct Hin as [->|Hin]; [reflexivity|].
    exfalso. apply Hx. rewrite E. apply list_elem_of_In, in_map, Hin.
  - destruct Hin as [->|Hin]; [|now apply IH].
    rewrite (proj2 (strictEq_iff _ _) eq_refl) in E. discriminate.
Qed.

(** X13. A click on a preview opens its book.  When the ids of [books]
    are distinct and the id of [book] is not empty, a click whose event
    path reaches the button that [previewElement] built for [book],
    through nodes without [data-preview], opens the detail dialog with the
    image, title and description of [book] and, as subtitle, the text of
    [${authors[book.author]}] (the name the table stores for the author,
    else the member the table inherits under that name, else [undefined])
    followed by the year in brackets, whatever the rest of the path is.
    Nothing else in the document and nothing in the view changes. *)
Theorem click_on_preview_opens_its_book
    (authors : Data.table) (getFullYear : Book.Date -> JsString.t)
    (ui : BookUI.t) (book : Book.t) (inner outer : list (option JsString.t)) :
  In book (BookList.books (BookUI.bookList ui)) ->
  NoDup (map Book.id (BookList.books (BookUI.bookList ui))) ->
  Book.id book <> [] ->
  Forall (fun node => node = None) inner ->
  let path := inner ++ Some (Dom.dataPreview (BookUI.previewElement authors book)) :: outer in
  let ui' := BookUI.handleBookClick authors getFullYear path ui in
  Dom.active (BookUI.dom ui')
  = {| Dom.open := true;
       Dom.blur := Book.image book;
       Dom.image := Book.image book;
       Dom.title := Book.title book;
       Dom.subtitle :=
         Data.text authors (Book.author book)
         ++ JsString.lit " (" ++ getFullYear (Book.published book)
         ++ JsString.lit ")";
       Dom.description := Book.description book |}
  /\ BookUI.bookList ui' = BookUI.bookList ui
  /\ Dom.withActive (Dom.active (BookUI.dom ui)) (BookUI.dom ui') = BookUI.dom ui.
Proof.
  intros Hin Hnd Hid Hinner path ui'. subst ui' path.
  unfold BookUI.handleBookClick. rewrite findActive_skip by exact Hinner.
  cbn [BookUI.findActive BookUI.previewElement Dom.dataPreview].
  assert (Ht : JsString.truthy (Book.id book) = true)
    by (destruct (Book.id book); [contradiction | reflexivity]).
  rewrite Ht, find_by_id by assumption.
  rewrite findActive_found. cbn.
  repeat split. now destruct (BookUI.dom ui).
Qed.

(** X14. A click that names no book changes nothing.  When every node of
    the event path has no [data-preview], an empty one, or one that is the
    id of no entry, [handleBookClick] leaves the view and the document as
    they are.  In particular an entry whose id is the empty string can
    never be opened. *)
Theorem click_without_book_is_noop
    (authors : Data.table) (getFullYear : Book.Date -> JsString.t)
    (ui : BookUI.t) (path : list (option JsString.t)) :
  Forall (fun node =>
            match node with
            | None => True
            | Some preview =>
                preview = []
                \/ forall book, In book (BookList.books (BookUI.bookList ui)) ->
                                Book.id book <> preview
            end) path ->
  BookUI.handleBookClick authors getFullYear path ui = ui.
Proof.
  intros Hpath. unfold BookUI.handleBookClick.
  assert (Hnone : BookUI.findActive (BookList.books (BookUI.bookList ui)) None path = None).
  { induction Hpath as [|node path Hnode _ IH]; [reflexivity|].
    cbn [BookUI.findActive]. destruct node as [preview|]; [|exact IH].
    destruct Hnode as [->|Hno]; [exact IH|].
    destruct (JsString.truthy preview); [|exact IH].
    destruct (List.find _ _) as [b|] eqn:Hf; [|exact IH].
    apply find_some in Hf. destruct Hf as [Hb Heq].
    apply strictEq_iff in Heq. now destruct (Hno b Hb). }
  now rewrite Hnone.
Qed.

(** ** Dropdowns, theme and what the events leave alone *)

Ltac unfold_listener :=
  cbn [BookUI.handle];
  first
    [ reflexivity
    | unfold BookUI.loadMoreBooks; rewrite nextPage_eq; destruct (0 <? _); reflexivity
    | unfold BookUI.handleBookClick; destruct (BookUI.findActive _ _ _); reflexivity ].

Lemma handle_dropdowns
    (authors : Data.table) (getFullYear : Book.Date -> JsString.t)
    (e : BookUI.event) (ui : BookUI.t) :
  Dom.dropdowns (BookUI.dom (BookUI.handle authors getFullYear e ui))
  = Dom.dropdowns (BookUI.dom ui).
Proof. destruct e; unfold_listener. Qed.

Lemma handle_colours
    (authors : Data.table) (getFullYear : Book.Date -> JsString.t)
    (e : BookUI.event) (ui : BookUI.t) :
  Dom.colours (BookUI.dom (BookUI.handle authors getFullYear e ui))
  = match e with
    | BookUI.SettingsSubmit theme => Dom.colours (BookUI.dom (BookUI.applyTheme theme ui))
    | _ => Dom.colours (BookUI.dom ui)
    end.
Proof. destruct e; unfold_listener. Qed.

Lemma optionsFragment_from (options : Data.table) (start : list Dom.optionElement) :
  fold_left
    (fun fragment entry =>
       let (id, name) := entry : JsString.t * JsString.t in
       fragment ++ [ {| Dom.value := id; Dom.innerText := name |} ])
    options start
  = start ++ map (fun entry => Dom.mkOption (fst entry) (snd entry)) options.
Proof.
  revert start. induction options as [|[id name] options IH]; intros start; simpl.
  - now rewrite app_nil_r.
  - rewrite IH, <- app_assoc. reflexivity.
Qed.

(** X15. The dropdowns.  [createBookUI] appends to each dropdown, after
    the options it already has, the option ["any"] and then one option
    per entry of the table, in the order of the table, with the id as
    value and the name as text; no event changes the dropdowns
    afterwards. *)
Theorem dropdowns_populated_once
    (authors genres : Data.table) (getFullYear : Book.Date -> JsString.t)
    (isDark : bool) (v : BookList.t) (document : Dom.t) (events : list BookUI.event) :
  let ui := BookUI.handleAll authors getFullYear events
              (BookUI.createBookUI authors genres isDark v document) in
  Dom.searchGenres (Dom.dropdowns (BookUI.dom ui))
  = Dom.searchGenres (Dom.dropdowns document)
    ++ Dom.mkOption (JsString.lit "any") (JsString.lit "All Genres")
       :: map (fun entry => Dom.mkOption (fst entry) (snd entry)) genres
  /\ Dom.searchAuthors (Dom.dropdowns (BookUI.dom ui))
     = Dom.searchAuthors (Dom.dropdowns document)
       ++ Dom.mkOption (JsString.lit "any") (JsString.lit "All Authors")
          :: map (fun entry => Dom.mkOption (fst entry) (snd entry)) authors.
Proof.
  induction events as [|e es IH] using rev_ind.
  - cbn. unfold BookUI.optionsFragment. rewrite !optionsFragment_from. split; reflexivity.
  - cbv zeta in *. rewrite handleAll_snoc, handle_dropdowns. exact IH.
Qed.

(** X16. The theme.  After [createBookUI] and any sequence of events the
    two CSS variables hold the light-on-dark pair when the theme applied
    last is ["night"], and the dark-on-light pair for every other theme
    name: a name that is neither ["night"] nor ["day"] is shown as day. *)
Theorem theme_colours_follow_last_theme
    (authors genres : Data.table) (getFullYear : Book.Date -> JsString.t)
    (isDark : bool) (v : BookList.t) (document : Dom.t) (events : list BookUI.event) :
  let ui := BookUI.handleAll authors getFullYear events
              (BookUI.createBookUI authors genres isDark v document) in
  let c := Dom.colours (BookUI.dom ui) in
  (UISpec.lastTheme isDark events = JsString.lit "night" ->
   Dom.colorDark c = JsString.lit "255, 255, 255" /\ Dom.colorLight c = JsString.lit "10, 10, 20")
  /\ (UISpec.lastTheme isDark events <> JsString.lit "night" ->
      Dom.colorDark c = JsString.lit "10, 10, 20" /\ Dom.colorLight c = JsString.lit "255, 255, 255").
Proof.
  cbv zeta.
  assert (H : Dom.colorDark (Dom.colours (BookUI.dom
                (BookUI.handleAll authors getFullYear events
                   (BookUI.createBookUI authors genres isDark v document))))
              = (if JsString.strictEq (UISpec.lastTheme isDark events) (JsString.lit "night")
                 then JsString.lit "255, 255, 255" else JsString.lit "10, 10, 20")
              /\ Dom.colorLight (Dom.colours (BookUI.dom
                   (BookUI.handleAll authors getFullYear events
                      (BookUI.createBookUI authors genres isDark v document))))
                 = (if JsString.strictEq (UISpec.lastTheme isDark events) (JsString.lit "night")
                    then JsString.lit "10, 10, 20" else JsString.lit "255, 255, 255")).
  { induction events as [|e es IH] using rev_ind.
    - destruct isDark; split; reflexivity.
    - rewrite handleAll_snoc, handle_colours.
      unfold UISpec.lastTheme in *. rewrite fold_left_app. cbn [fold_left].
      destruct e; try exact IH. split; reflexivity. }
  destruct H as [-> ->].
  destruct (JsString.strictEq (UISpec.lastTheme isDark events) (JsString.lit "night")) eqn:E.
  - split; [auto|]. intros Hne. apply strictEq_iff in E. contradiction.
  - split; [|auto]. intros Heq. apply strictEq_iff in Heq. congruence.
Qed.

(** X17. What the events leave alone.  No event changes [books] or
    [booksPerPage] of the view; and a sequence of events without a search
    and without "Show more" leaves the whole view and the whole list area
    (container, button, message) as they are. *)
Theorem events_frame
    (authors : Data.table) (getFullYear : Book.Date -> JsString.t)
    (events : list BookUI.event) (ui : BookUI.t) :
  let ui' := BookUI.handleAll authors getFullYear events ui in
  BookList.books (BookUI.bookList ui') = BookList.books (BookUI.bookList ui)
  /\ BookList.booksPerPage (BookUI.bookList ui')
     = BookList.booksPerPage (BookUI.bookList ui)
  /\ (Forall (fun e => match e with
                       | BookUI.SearchSubmit _ | BookUI.ListButtonClick => False
                       | _ => True
                       end) events ->
      BookUI.bookList ui' = BookUI.bookList ui
      /\ Dom.list_ (BookUI.dom ui') = Dom.list_ (BookUI.dom ui)).
Proof.
  induction events as [|e es IH] using rev_ind; [repeat split|].
  cbv zeta in *. rewrite handleAll_snoc. destruct IH as (Hb & Hp & Hrest).
  destruct (handle_bookList_frame authors getFullYear e
              (BookUI.handleAll authors getFullYear es ui)) as [-> ->].
  split; [exact Hb|]. split; [exact Hp|].
  intros Hall. apply Forall_app in Hall. destruct Hall as [Hes He].
  apply Forall_cons in He. destruct He as [He _].
  destruct (Hrest Hes) as [<- <-].
  pose proof (handle_other_frame authors getFullYear e
                (BookUI.handleAll authors getFullYear es ui)) as H.
  destruct e; try contradiction; exact H.
Qed.

(** ** The single-file version *)

Lemma push_loop_is_filter {A : Type} (keep : A -> bool) (l acc : list A) :
  fold_left (fun result x => if keep x then result ++ [x] else result) l acc
  = acc ++ List.filter keep l.
Proof.
  revert acc. induction l as [|x l IH]; intros acc; simpl.
  - now rewrite app_nil_r.
  - rewrite IH. destruct (keep x); [now rewrite <- app_assoc | reflexivity].
Qed.

Lemma filter_map_commute {A B : Type} (g : A -> B) (p : B -> bool) (l : list A) :
  map g (List.filter (fun x => p (g x)) l) = List.filter p (map g l).
Proof.
  induction l as [|x l IH]; simpl; [reflexivity|].
  destruct (p (g x)); simpl; now rewrite IH.
Qed.

(** X18. The refactoring kept the search.  The loop of the single-file
    submit listener selects, from the raw records, exactly the entries
    that [search] of [createBookList] selects, in the same order. *)
Theorem single_file_search_agrees
    (booksData : list BookData.t) (booksPerPage : Z) (filters : Filters.t) :
  map Book.createBook (SingleFile.searchResult filters booksData)
  = fst (BookList.search filters (BookList.createBookList booksData booksPerPage)).
Proof.
  rewrite search_eq. cbn [fst BookList.books BookList.createBookList].
  rewrite <- (filter_map_commute Book.createBook (fun book => Book.matches book filters)).
  f_equal. unfold SingleFile.searchResult.
  rewrite (push_loop_is_filter
             (fun book =>
                (JsString.strictEq (JsString.trim (Filters.title filters)) (JsString.lit "")
                 || JsString.includes (JsString.toLowerCase (BookData.title book))
                      (JsString.toLowerCase (Filters.title filters)))
                && (JsString.strictEq (Filters.author filters) (JsString.lit "any")
                    || JsString.strictEq (BookData.author book) (Filters.author filters))
                && Book.genreLoop (JsString.strictEq (Filters.genre filters) (JsString.lit "any"))
                     (BookData.genres book) (Filters.genre filters))).
  simpl. apply filter_ext. intros book. unfold Book.matches. simpl.
  now destruct (JsString.trim (Filters.title filters)).
Qed.

End WithHost.

(** * The theorems at the sample data

    The sample strings are ASCII, so [sampleHost] lower-cases them as
    every host does. *)

Section OnSampleData.

#[local] Existing Instance sampleHost.

(** An entry whose [genres] is missing makes [matches] raise, even under
    the identity filter: the failure path of [Dyn] is a real one. *)
Example dyn_matches_throws_without_genres :
  Dyn.matches
    (Dyn.mkBook (Dyn.Str (str "1")) (Dyn.Str (str "Go Fish")) (Dyn.Str (str "a1")) (Dyn.Str (str ""))
                (Dyn.Str (str "")) (Dyn.NewDate (Dyn.Str (str ""))) Dyn.Undefined)
    Spec.identityFilter
  = Dyn.Throw Dyn.TypeError.
Proof. reflexivity. Qed.

Example scenario_search :
  fst (BookList.search genreG1 twoBooks) = [Book.createBook goFish].
Proof. reflexivity. Qed.

Example scenario_paging :
  let v := snd (BookList.search genreG1 twoBooks) in
  fst (BookList.getCurrentBookPage v) = [Book.createBook goFish]
  /\ fst (BookList.remainingCount v) = 0
  /\ fst (BookList.nextPage v) = false.
Proof. repeat split. Qed.

Example showAll_two_pages :
  BookList.showAll 3 twoBooks
  = Some ([[Book.createBook goFish]; [Book.createBook rustPrimer]],
          BookList.withPage 2 twoBooks).
Proof. reflexivity. Qed.

(** C1 at [twoBooks] after one [nextPage]: the entry with genre [g1],
    a sublist of [books] whose entries pass the filter, is inside the
    result of the search. *)
Lemma search_filters_and_resets_witness :
  sublist [Book.createBook goFish]
          (fst (BookList.search genreG1 (BookList.advance 1 twoBooks)))
  /\ BookList.currentPage (snd (BookList.search genreG1 (BookList.advance 1 twoBooks)))
     = 1.
Proof.
  pose proof (search_filters_and_resets twoBooks genreG1 1) as H.
  cbv zeta in H. destruct H as (_ & _ & Hpage & _ & _ & Hmax).
  split; [|exact Hpage].
  apply Hmax.
  - simpl. repeat constructor.
  - intros book [<-|[]]. reflexivity.
Defined.

Example title_test_on_sample :
  Book.matches (Book.createBook rustPrimer) (Filters.mk (str "T PRI") (str "any") (str "any")) = true
  /\ Book.matches (Book.createBook rustPrimer) (Filters.mk (str " rust") (str "any") (str "any")) = false
  /\ Book.matches (Book.createBook rustPrimer) (Filters.mk (str "   ") (str "a9") (str "g2")) = false
  /\ Book.matches (Book.createBook rustPrimer) (Filters.mk (str "   ") (str "a2") (str "g2")) = true.
Proof. repeat split. Qed.


(** C3 at [threeBooks]: two pages of size 2 give back the three entries. *)
Lemma showAll_yields_matches_witness :
  1 <= BookList.booksPerPage threeBooks
  /\ BookList.currentPage threeBooks = 1
  /\ (length (BookList.matches threeBooks) < 4)%nat
  /\ exists pages final,
       BookList.showAll 4 threeBooks = Some (pages, final)
       /\ concat pages = BookList.matches threeBooks
       /\ fst (BookList.remainingCount final) = 0
       /\ BookList.matches final = BookList.matches threeBooks.
Proof.
  assert (H1 : 1 <= BookList.booksPerPage threeBooks) by (simpl; lia).
  assert (H2 : BookList.currentPage threeBooks = 1) by reflexivity.
  assert (H3 : (length (BookList.matches threeBooks) < 4)%nat) by (simpl; lia).
  repeat split; try assumption.
  exact (showAll_yields_matches threeBooks 4 H1 H2 H3).
Defined.

(** C4 at [threeBooks]: one entry remains after page 1, so [nextPage]
    moves to page 2. *)
Lemma nextPage_advances_or_stays_witness :
  0 < fst (BookList.remainingCount threeBooks)
  /\ BookList.nextPage threeBooks = (true, BookList.withPage 2 threeBooks).
Proof.
  assert (Hpos : 0 < fst (BookList.remainingCount threeBooks)) by reflexivity.
  split; [exact Hpos|].
  pose proof (nextPage_advances_or_stays threeBooks) as H.
  cbv zeta in H. destruct H as (Hadv & _).
  exact (Hadv Hpos).
Defined.

(** C5 at page 2 of [threeBooks]: the upper bound 4 lies beyond the three
    entries, and the page is the tail after the first two. *)
Lemma getCurrentBookPage_is_clamped_slice_witness :
  Spec.wellFormed (BookList.withPage 2 threeBooks)
  /\ fst (BookList.getCurrentBookPage (BookList.withPage 2 threeBooks))
     = drop 2 (BookList.matches threeBooks).
Proof.
  assert (Hwf : Spec.wellFormed (BookList.withPage 2 threeBooks))
    by (split; simpl; lia).
  split; [exact Hwf|].
  pose proof (getCurrentBookPage_is_clamped_slice (BookList.withPage 2 threeBooks)) as H.
  cbv zeta in H. destruct H as (_ & _ & _ & Hrest).
  destruct (Hrest Hwf) as (_ & _ & Htail & _).
  apply Htail. simpl. lia.
Defined.

(** C6 at [threeBooks]: page 1 is followed by as many entries as
    [remainingCount] says. *)
Lemma remainingCount_counts_unseen_witness :
  Spec.wellFormed threeBooks
  /\ exists unseen,
       BookList.matches threeBooks
       = concat (BookList.pagesUpToCurrent threeBooks) ++ unseen
       /\ fst (BookList.remainingCount threeBooks) = Z.of_nat (length unseen).
Proof.
  assert (Hwf : Spec.wellFormed threeBooks) by (split; simpl; lia).
  split; [exact Hwf|].
  destruct (remainingCount_counts_unseen threeBooks) as (_ & _ & _ & Hrest).
  exact (Hrest Hwf).
Defined.

(** C9 at [twoBooks]: an author id that no entry carries selects nothing,
    and the search completes normally. *)
Lemma core_operations_never_throw_witness :
  fst (Dyn.search (Filters.mk (str "") (str "nobody") (str "any")) (Dyn.ofView twoBooks))
  = Dyn.Normal [].
Proof.
  destruct (core_operations_never_throw twoBooks (Filters.mk (str "") (str "nobody") (str "any")))
    as (_ & _ & _ & Hauthor & _).
  apply Hauthor.
  - discriminate.
  - intros b [<-|[<-|[]]]; discriminate.
Defined.

Lemma search_relaxed_criteria_witness :
  sublist (fst (BookList.search (Filters.mk (str "sea") (str "a1") (str "g1")) threeBooks))
          (fst (BookList.search (Filters.mk (str "") (str "a1") (str "any")) threeBooks)).
Proof.
  apply (search_relaxed_criteria threeBooks
           (Filters.mk (str "sea") (str "a1") (str "g1")) (Filters.mk (str "") (str "a1") (str "any"))).
  - left. constructor.
  - right. reflexivity.
  - left. reflexivity.
Defined.

Lemma nextPage_saturates_witness :
  BookList.advance 5 (BookList.withPage 2 threeBooks) = BookList.withPage 2 threeBooks
  /\ BookList.nextPage (BookList.advance 5 (BookList.withPage 2 threeBooks))
     = (false, BookList.withPage 2 threeBooks).
Proof.
  apply (nextPage_saturates (BookList.withPage 2 threeBooks) 5). reflexivity.
Defined.

Lemma advance_reaches_page_witness :
  BookList.currentPage (BookList.advance 7 threeBooks) = 2.
Proof.
  rewrite (advance_reaches_page threeBooks 7); [reflexivity | simpl; lia | reflexivity].
Defined.

Lemma current_page_not_empty_witness :
  1 <= 2
  /\ fst (BookList.getCurrentBookPage
            (BookList.afterAll [BookList.NextPage; BookList.NextPage; BookList.NextPage]
               (BookList.createBookList [goFish; rustPrimer; seaTales] 2)))
     <> [].
Proof.
  assert (Hpp : 1 <= 2) by lia.
  split; [exact Hpp|].
  apply (current_page_not_empty [goFish; rustPrimer; seaTales] 2
           [BookList.NextPage; BookList.NextPage; BookList.NextPage] Hpp).
  discriminate.
Defined.

Lemma list_area_consistent_witness :
  1 <= 2
  /\ Dom.items
       (Dom.list_
          (BookUI.dom
             (BookUI.handleAll sampleAuthors sampleYear [BookUI.ListButtonClick]
                (BookUI.createBookUI sampleAuthors sampleGenres false
                   (BookList.createBookList [goFish; rustPrimer; seaTales] 2)
                   blankDocument))))
     = map (BookUI.previewElement sampleAuthors)
           (map Book.createBook [goFish; rustPrimer; seaTales]).
Proof.
  assert (Hpp : 1 <= 2) by lia.
  split; [exact Hpp|].
  pose proof (list_area_consistent sampleAuthors sampleGenres sampleYear false
                [goFish; rustPrimer; seaTales] 2 blankDocument
                [BookUI.ListButtonClick] Hpp) as H.
  cbv zeta in H. destruct H as (_ & _ & _ & _ & Hall).
  apply Hall. reflexivity.
Defined.

Lemma show_more_disabled_is_noop_witness :
  BookUI.handle sampleAuthors sampleYear BookUI.ListButtonClick
    (BookUI.handleAll sampleAuthors sampleYear [BookUI.SearchSubmit genreG1]
       (BookUI.createBookUI sampleAuthors sampleGenres true
          (BookList.createBookList [goFish; rustPrimer] 1) blankDocument))
  = BookUI.handleAll sampleAuthors sampleYear [BookUI.SearchSubmit genreG1]
      (BookUI.createBookUI sampleAuthors sampleGenres true
         (BookList.createBookList [goFish; rustPrimer] 1) blankDocument).
Proof.
  apply (show_more_disabled_is_noop sampleAuthors sampleGenres sampleYear true
           [goFish; rustPrimer] 1 blankDocument [BookUI.SearchSubmit genreG1]).
  - lia.
  - reflexivity.
Defined.

Lemma click_on_preview_opens_its_book_witness :
  Dom.title
    (Dom.active
       (BookUI.dom
          (BookUI.handleBookClick sampleAuthors sampleYear
             [None; None; Some (str "2"); None; None]
             (BookUI.createBookUI sampleAuthors sampleGenres false twoBooks blankDocument))))
  = (str "Rust Primer").
Proof.
  pose proof (click_on_preview_opens_its_book sampleAuthors sampleYear
                (BookUI.createBookUI sampleAuthors sampleGenres false twoBooks blankDocument)
                (Book.createBook rustPrimer) [None; None] [None; None]) as H.
  cbv zeta in H. destruct H as (Hactive & _).
  - right. left. reflexivity.
  - simpl. repeat constructor; rewrite ?list_elem_of_In; simpl; intuition discriminate.
  - discriminate.
  - repeat constructor.
  - exact (f_equal Dom.title Hactive).
Defined.

Lemma click_without_book_is_noop_witness :
  BookUI.handleBookClick sampleAuthors sampleYear
    [None; Some (str ""); Some (str "9")]
    (BookUI.createBookUI sampleAuthors sampleGenres false twoBooks blankDocument)
  = BookUI.createBookUI sampleAuthors sampleGenres false twoBooks blankDocument.
Proof.
  apply (click_without_book_is_noop sampleAuthors sampleYear).
  constructor; [exact I|].
  constructor; [left; reflexivity|].
  constructor; [|constructor].
  right. intros book [<-|[<-|[]]]; discriminate.
Defined.

Lemma theme_colours_follow_last_theme_witness :
  Dom.colorDark
    (Dom.colours
       (BookUI.dom
          (BookUI.handleAll sampleAuthors sampleYear [BookUI.SettingsSubmit (str "dusk")]
             (BookUI.createBookUI sampleAuthors sampleGenres true twoBooks blankDocument))))
  = (str "10, 10, 20").
Proof.
  pose proof (theme_colours_follow_last_theme sampleAuthors sampleGenres sampleYear
                true twoBooks blankDocument [BookUI.SettingsSubmit (str "dusk")]) as H.
  cbv zeta in H. destruct H as [_ Hday].
  apply Hday. discriminate.
Defined.

End OnSampleData.
